(** * ProgramMapper of midi_controller.py: a shallow embedding

    The mapper is a Python object mutated by [handle]; it talks to two
    collaborators, the MIDI output port ([outport.send]) and the JSON state
    file ([save_programs]).  The embedding threads the object's fields
    through a small monad that also records, in order, what was sent and what
    was written, and that keeps the object as it was when an exception
    escaped.

    Times are integers counting microseconds (the resolution of [datetime]
    and [timedelta]); a difference of two readings is the [timedelta]. *)

From Stdlib Require Import ZArith List Bool Lia.
From Stdlib Require String.
Import ListNotations.
Import String.StringSyntax.
Delimit Scope string_scope with string.
Open Scope Z_scope.

(** ** Messages, effects, exceptions *)

(** A mido message as [handle] looks at it: [type], and the attributes that
    exist for that type.  Channel voice messages other than the two handled
    ones still have a [channel]; system messages (clock, sysex, ...) have
    none, and reading it raises [AttributeError]. *)
Inductive message : Type :=
  | program_change (channel program : Z)
  | control_change (channel control value : Z)
  | other_voice (channel : Z)
  | system_message.

(** What the mapper does to its collaborators: [outport.send(msg)] and
    [json.dump(self.programs, f)] over the whole file.  The range checks
    mido makes when a message is built, and the failures of the file system,
    belong to the collaborators and are left out. *)
Inductive effect : Type :=
  | Send (msg : message)
  | Save (table : list (list bool)).

Inductive exn : Type := IndexError | KeyError | AttributeError.

(** ** The object *)

(** The constructor's keyword arguments; never reassigned afterwards. *)
Record config : Type := {
  in_channel : Z;
  out_channel : Z;
  n_loops : Z;
  bank_size : Z;
  n_banks : Z;
  tripletap_time : Z
}.

Record mapper : Type := {
  conf : config;
  programs : list (list bool);
  edit_mode : bool;
  active_program : Z;
  active_state : list bool;
  ts_history : list Z;
  program_history : list Z;
  last_ts : Z
}.

Definition set_programs (v : list (list bool)) (s : mapper) : mapper :=
  {| conf := conf s; programs := v; edit_mode := edit_mode s;
     active_program := active_program s; active_state := active_state s;
     ts_history := ts_history s; program_history := program_history s;
     last_ts := last_ts s |}.

Definition set_edit_mode (v : bool) (s : mapper) : mapper :=
  {| conf := conf s; programs := programs s; edit_mode := v;
     active_program := active_program s; active_state := active_state s;
     ts_history := ts_history s; program_history := program_history s;
     last_ts := last_ts s |}.

Definition set_active_program (v : Z) (s : mapper) : mapper :=
  {| conf := conf s; programs := programs s; edit_mode := edit_mode s;
     active_program := v; active_state := active_state s;
     ts_history := ts_history s; program_history := program_history s;
     last_ts := last_ts s |}.

Definition set_active_state (v : list bool) (s : mapper) : mapper :=
  {| conf := conf s; programs := programs s; edit_mode := edit_mode s;
     active_program := active_program s; active_state := v;
     ts_history := ts_history s; program_history := program_history s;
     last_ts := last_ts s |}.

Definition set_ts_history (v : list Z) (s : mapper) : mapper :=
  {| conf := conf s; programs := programs s; edit_mode := edit_mode s;
     active_program := active_program s; active_state := active_state s;
     ts_history := v; program_history := program_history s;
     last_ts := last_ts s |}.

Definition set_program_history (v : list Z) (s : mapper) : mapper :=
  {| conf := conf s; programs := programs s; edit_mode := edit_mode s;
     active_program := active_program s; active_state := active_state s;
     ts_history := ts_history s; program_history := v;
     last_ts := last_ts s |}.

Definition set_last_ts (v : Z) (s : mapper) : mapper :=
  {| conf := conf s; programs := programs s; edit_mode := edit_mode s;
     active_program := active_program s; active_state := active_state s;
     ts_history := ts_history s; program_history := program_history s;
     last_ts := v |}.

(** ** Python sequences *)

(** The position a Python index denotes in a sequence of length [n]:
    [0 .. n-1] as they are, [-n .. -1] counted from the end, anything else
    out of range. *)
Definition py_pos (n : nat) (i : Z) : option nat :=
  if (0 <=? i) && (i <? Z.of_nat n) then Some (Z.to_nat i)
  else if (- Z.of_nat n <=? i) && (i <? 0) then Some (Z.to_nat (Z.of_nat n + i))
  else None.

(** [l[i]]; [None] stands for IndexError. *)
Definition py_getitem {A : Type} (l : list A) (i : Z) : option A :=
  match py_pos (length l) i with
  | Some k => nth_error l k
  | None => None
  end.

Fixpoint replace_nth {A : Type} (k : nat) (v : A) (l : list A) : list A :=
  match l, k with
  | [], _ => []
  | _ :: t, O => v :: t
  | x :: t, S k' => x :: replace_nth k' v t
  end.

(** [l[i] = v]; [None] stands for IndexError. *)
Definition py_setitem {A : Type} (l : list A) (i : Z) (v : A) : option (list A) :=
  match py_pos (length l) i with
  | Some k => Some (replace_nth k v l)
  | None => None
  end.

(** [deque.popleft()] leaves the tail; on an empty deque it is IndexError. *)
Definition popleft {A : Type} (d : list A) : option (list A) :=
  match d with
  | [] => None
  | _ :: t => Some t
  end.

(** ** The monad: object state, effects in order, exceptions *)

Inductive result (A : Type) : Type :=
  | Ok (a : A) (s : mapper) (tr : list effect)
  | Raise (e : exn) (s : mapper) (tr : list effect).
Arguments Ok {A} a s tr.
Arguments Raise {A} e s tr.

Definition M (A : Type) : Type := mapper -> result A.

Definition ret {A : Type} (a : A) : M A := fun s => Ok a s [].

Definition bind {A B : Type} (m : M A) (f : A -> M B) : M B :=
  fun s =>
    match m s with
    | Ok a s1 tr1 =>
        match f a s1 with
        | Ok b s2 tr2 => Ok b s2 (tr1 ++ tr2)
        | Raise e s2 tr2 => Raise e s2 (tr1 ++ tr2)
        end
    | Raise e s1 tr1 => Raise e s1 tr1
    end.

Notation "x <- c1 ;; c2" := (bind c1 (fun x => c2))
  (at level 61, c1 at next level, right associativity).
Notation "c1 ;;; c2" := (bind c1 (fun _ => c2))
  (at level 61, right associativity).

Definition gets {A : Type} (f : mapper -> A) : M A := fun s => Ok (f s) s [].
Definition modify (f : mapper -> mapper) : M unit := fun s => Ok tt (f s) [].
Definition raise {A : Type} (e : exn) : M A := fun s => Raise e s [].
Definition emit (x : effect) : M unit := fun s => Ok tt s [x].

Definition or_raise {A : Type} (e : exn) (o : option A) : M A :=
  match o with
  | Some a => ret a
  | None => raise e
  end.

Definition state_of {A : Type} (r : result A) : mapper :=
  match r with
  | Ok _ s _ => s
  | Raise _ s _ => s
  end.

Definition effects_of {A : Type} (r : result A) : list effect :=
  match r with
  | Ok _ _ tr => tr
  | Raise _ _ tr => tr
  end.

(** The state file after a run of effects: the last write wins. *)
Fixpoint store_after (store : option (list (list bool))) (tr : list effect)
  : option (list (list bool)) :=
  match tr with
  | [] => store
  | Save t :: tr' => store_after (Some t) tr'
  | Send _ :: tr' => store_after store tr'
  end.

(** ** ProgramMapper *)

(** [self.looper_programs], a dict keyed by pairs; a tuple of any other
    length is not a key (KeyError). *)
Definition looper_programs (key : list bool) : option Z :=
  match key with
  | [false; false] => Some 0
  | [true; false] => Some 1
  | [false; true] => Some 2
  | [true; true] => Some 3
  | _ => None
  end.

Definition control_commands : list Z := [80; 81; 82; 83].

Definition save_programs : M unit :=
  table <- gets programs ;;
  emit (Save table).

Definition apply_program : M unit :=
  table <- gets programs ;;
  p <- gets active_program ;;
  row <- or_raise IndexError (py_getitem table p) ;;
  modify (set_active_state row) ;;;
  state <- gets active_state ;;
  l <- or_raise KeyError (looper_programs (firstn 2 state)) ;;
  let digit_left := 1 + l in
  digit_right <- or_raise KeyError (looper_programs (skipn 2 state)) ;;
  let looper_program := 10 * digit_left + digit_right in
  oc <- gets (fun s => out_channel (conf s)) ;;
  emit (Send (program_change oc looper_program)).

Definition timedelta_ms (ms : Z) : Z := ms * 1000.
Definition timedelta_s (sec : Z) : Z := sec * 1000000.

(** [message.channel] *)
Definition channel_of (msg : message) : option Z :=
  match msg with
  | program_change ch _ => Some ch
  | control_change ch _ _ => Some ch
  | other_voice ch => Some ch
  | system_message => None
  end.

(** Lines 85-90: a program change shifts both deques.  [now3] is the
    reading of [datetime.now()] on line 87. *)
Definition record_program_change (now3 : Z) (msg : message) : M unit :=
  match msg with
  | program_change _ program =>
      tsh <- gets ts_history ;;
      tsh' <- or_raise IndexError (popleft tsh) ;;
      modify (set_ts_history (tsh' ++ [now3])) ;;;
      ph <- gets program_history ;;
      ph' <- or_raise IndexError (popleft ph) ;;
      modify (set_program_history (ph' ++ [program]))
  | _ => ret tt
  end.

(** Lines 92-112, the branch taken when [self.edit_mode] holds. *)
Definition handle_edit (msg : message) : M unit :=
  match msg with
  | program_change _ _ =>
      (* exit edit mode *)
      ph <- gets program_history ;;
      newest <- or_raise IndexError (py_getitem ph (-1)) ;;
      ap <- gets active_program ;;
      if negb (newest =? ap) then modify (set_edit_mode false) else ret tt
  | control_change _ control _ =>
      (* edit program *)
      if (80 <=? control) && (control <=? 83) then
        p <- gets active_program ;;
        let loop := 3 - control + 80 in
        table <- gets programs ;;
        row <- or_raise IndexError (py_getitem table p) ;;
        b <- or_raise IndexError (py_getitem row loop) ;;
        let loop_state := negb b in
        row' <- or_raise IndexError (py_setitem row loop loop_state) ;;
        table' <- or_raise IndexError (py_setitem table p row') ;;
        modify (set_programs table') ;;;
        apply_program ;;;
        save_programs
      else ret tt
  | _ => ret tt
  end.

(** Lines 118-124: the condition of the first [if] of program mode, with
    the short-circuits of [and] and of the chained [==]. *)
Definition tripletap_test : M bool :=
  tsh <- gets ts_history ;;
  newest <- or_raise IndexError (py_getitem tsh (-1)) ;;
  oldest <- or_raise IndexError (py_getitem tsh 0) ;;
  window <- gets (fun s => tripletap_time (conf s)) ;;
  if newest - oldest <=? window then
    ph <- gets program_history ;;
    h0 <- or_raise IndexError (py_getitem ph 0) ;;
    h1 <- or_raise IndexError (py_getitem ph 1) ;;
    if h0 =? h1 then
      h2 <- or_raise IndexError (py_getitem ph 2) ;;
      ret (h1 =? h2)
    else ret false
  else ret false.

(** Lines 115-155, the branch taken when [self.edit_mode] does not hold. *)
Definition handle_normal (msg : message) : M unit :=
  match msg with
  | program_change _ program =>
      tap <- tripletap_test ;;
      if tap then
        (* hitting the same program button thrice activates edit mode *)
        modify (set_edit_mode true) ;;;
        modify (set_active_program program)
      else
        ap <- gets active_program ;;
        if negb (ap =? program) then
          (* change program *)
          modify (set_active_program program) ;;;
          table <- gets programs ;;
          logged <- or_raise IndexError (py_getitem table program) ;;
          apply_program
        else ret tt
  | control_change _ control _ =>
      (* toggle loops manually but dont change program data *)
      if (80 <=? control) && (control <=? 83) then
        let loop := 3 - control + 80 in
        state <- gets active_state ;;
        b <- or_raise IndexError (py_getitem state loop) ;;
        state' <- or_raise IndexError (py_setitem state loop (negb b)) ;;
        modify (set_active_state state') ;;;
        oc <- gets (fun s => out_channel (conf s)) ;;
        state'' <- gets active_state ;;
        engaged <- or_raise IndexError (py_getitem state'' loop) ;;
        emit (Send (control_change oc (80 + loop) (127 * Z.b2z engaged)))
      else ret tt
  | _ => ret tt
  end.

(** Lines 85-155, the body of the [if] on line 82: what a message does once
    the filters have let it through. *)
Definition dispatch (now3 : Z) (msg : message) : M unit :=
  record_program_change now3 msg ;;;
  em <- gets edit_mode ;;
  if em then handle_edit msg else handle_normal msg.

(** [handle(message)].  [now1], [now2] and [now3] are the readings of
    [datetime.now()] on lines 78, 82 and 87; [now1] is the arrival time. *)
Definition handle (now1 now2 now3 : Z) (msg : message) : M unit :=
  lts <- gets last_ts ;;
  modify (set_last_ts now1) ;;;
  cur <- gets last_ts ;;
  if cur - lts <? timedelta_ms 100 then ret tt
  else
    ch <- or_raise AttributeError (channel_of msg) ;;
    ic <- gets (fun s => in_channel (conf s)) ;;
    if ch =? ic then
      tsh <- gets ts_history ;;
      newest <- or_raise IndexError (py_getitem tsh (-1)) ;;
      if now2 - newest >? timedelta_ms 100 then
        dispatch now3 msg
      else ret tt
    else ret tt.

(** The table written when the state file does not exist (lines 58-60). *)
Definition default_programs (c : config) : list (list bool) :=
  repeat (repeat false (Z.to_nat (n_loops c)))
         (Z.to_nat (bank_size c * n_banks c)).

(** The object before the constructor has assigned anything but its
    configuration; every other field is assigned by [init_body] before it is
    read. *)
Definition blank (c : config) : mapper :=
  {| conf := c; programs := []; edit_mode := false; active_program := 0;
     active_state := []; ts_history := []; program_history := [];
     last_ts := 0 |}.

(** [__init__] from line 54 on.  [store] is the content of the state file
    ([None]: FileNotFoundError); [now_a] and [now_b] are the readings of
    [datetime.now()] on lines 71 and 73. *)
Definition init_body (store : option (list (list bool))) (now_a now_b : Z)
  : M unit :=
  match store with
  | Some table => modify (set_programs table)
  | None =>
      c <- gets conf ;;
      modify (set_programs (default_programs c)) ;;;
      save_programs
  end ;;;
  modify (set_edit_mode false) ;;;
  modify (set_active_program 0) ;;;
  apply_program ;;;
  table <- gets programs ;;
  p <- gets active_program ;;
  row <- or_raise IndexError (py_getitem table p) ;;
  modify (set_active_state row) ;;;
  modify (set_ts_history [now_a; now_a; now_a]) ;;;
  modify (set_program_history [-1; -1; -1]) ;;;
  modify (set_last_ts now_b).

Definition init (c : config) (store : option (list (list bool)))
  (now_a now_b : Z) : result unit :=
  init_body store now_a now_b (blank c).

(** The main loop: [for message in inport: mapper.handle(message)].  An
    event is a message with the three clock readings its handling makes. *)
Record event : Type := {
  arrival : Z;
  filter_time : Z;
  push_time : Z;
  payload : message
}.

Definition handle_event (e : event) : M unit :=
  handle (arrival e) (filter_time e) (push_time e) (payload e).

Fixpoint run (evs : list event) : M unit :=
  match evs with
  | [] => ret tt
  | e :: rest => handle_event e ;;; run rest
  end.

(** ** Vocabulary of the specification *)

(** The digit table of the program encoding, on pairs. *)
Definition pair_digit (first second : bool) : Z :=
  match first, second with
  | false, false => 0
  | true, false => 1
  | false, true => 2
  | true, true => 3
  end.

(** Outgoing program number of a four-flag configuration. *)
Definition encode (f0 f1 f2 f3 : bool) : Z :=
  10 * (pair_digit f0 f1 + 1) + pair_digit f2 f3.

(** The three admission filters let the event through: not within the
    debounce window of the previous call, on the input channel, and more
    than 100ms after the newest entry of the event history. *)
Definition admitted (now1 now2 : Z) (msg : message) (s : mapper) : Prop :=
  timedelta_ms 100 <= now1 - last_ts s /\
  channel_of msg = Some (in_channel (conf s)) /\
  exists newest, py_getitem (ts_history s) (-1) = Some newest /\
                 timedelta_ms 100 < now2 - newest.

(** The event history holds three entries. *)
Definition history_full (s : mapper) : Prop :=
  length (ts_history s) = 3%nat /\ length (program_history s) = 3%nat.

(** The triple-tap condition read on the event history. *)
Definition tripletap (program : Z) (s : mapper) : Prop :=
  exists t0 t1 t2,
    ts_history s = [t0; t1; t2] /\
    program_history s = [program; program; program] /\
    t2 - t0 <= tripletap_time (conf s).

(** Each event arrives less than 100ms after the one before it; [prev] is
    the arrival time of the event before the first. *)
Fixpoint bouncing (prev : Z) (evs : list event) : Prop :=
  match evs with
  | [] => True
  | e :: rest => arrival e - prev < timedelta_ms 100 /\ bouncing (arrival e) rest
  end.

Definition last_arrival (prev : Z) (evs : list event) : Z :=
  fold_left (fun _ e => arrival e) evs prev.

(** [active_state] equals the table's entry for [active_program]. *)
Definition in_step (s : mapper) : Prop :=
  py_getitem (programs s) (active_program s) = Some (active_state s).

(** The message is a program change in program mode for another program
    than the active one, and the history [s'] it leaves is no triple tap. *)
Definition switches (msg : message) (s s' : mapper) : Prop :=
  edit_mode s = false /\
  exists ch p, msg = program_change ch p /\
               p <> active_program s /\ ~ tripletap p s'.

(** The message is a loop control in edit mode. *)
Definition edits (msg : message) (s : mapper) : Prop :=
  edit_mode s = true /\
  exists ch c v, msg = control_change ch c v /\ 80 <= c <= 83.

(** The message is a loop control in program mode. *)
Definition toggles (msg : message) (s : mapper) : Prop :=
  edit_mode s = false /\
  exists ch c v, msg = control_change ch c v /\ 80 <= c <= 83.

(** A computation leaves the observation [f] of the object as it found it,
    whether it returns or raises. *)
Definition preserves {X A : Type} (f : mapper -> X) (m : M A) : Prop :=
  forall s, f (state_of (m s)) = f s.

(** ** Sample objects *)

Definition default_config : config :=
  {| in_channel := 0; out_channel := 3; n_loops := 4; bank_size := 4;
     n_banks := 9; tripletap_time := timedelta_s 1 |}.

(** The mapper as constructed with no state file, the clock reading 0. *)
Definition fresh : mapper :=
  {| conf := default_config;
     programs := default_programs default_config;
     edit_mode := false; active_program := 0;
     active_state := [false; false; false; false];
     ts_history := [0; 0; 0]; program_history := [-1; -1; -1];
     last_ts := 0 |}.

(** The fresh mapper over a table whose only program has five flags. *)
Definition five_flags : mapper :=
  set_programs [[false; false; false; false; false]] fresh.

(** Edit mode on program 1 of a two-program table, all loops off. *)
Definition editing : mapper :=
  {| conf := default_config;
     programs := [[false; false; false; false]; [false; false; false; false]];
     edit_mode := true; active_program := 1;
     active_state := [false; false; false; false];
     ts_history := [100000; 400000; 800000]; program_history := [1; 1; 1];
     last_ts := 800000 |}.

(** Program mode on program 0 of the same table. *)
Definition playing : mapper :=
  {| conf := default_config;
     programs := [[false; false; false; false]; [false; false; false; false]];
     edit_mode := false; active_program := 0;
     active_state := [false; false; false; false];
     ts_history := [0; 0; 0]; program_history := [-1; -1; -1];
     last_ts := 0 |}.

(** Program mode after two taps on program 1, 300ms apart. *)
Definition tapped_twice : mapper :=
  {| conf := default_config;
     programs := [[false; false; false; false]; [true; false; false; true]];
     edit_mode := false; active_program := 1;
     active_state := [true; false; false; true];
     ts_history := [0; 200000; 500000]; program_history := [-1; 1; 1];
     last_ts := 500000 |}.

(** A press on program 1 followed by three contact bounces, 40ms, 90ms and
    60ms apart. *)
Definition press : event :=
  {| arrival := 200000; filter_time := 200001; push_time := 200002;
     payload := program_change 0 1 |}.

Definition bounces : list event :=
  [ {| arrival := 240000; filter_time := 240001; push_time := 240002;
       payload := program_change 0 1 |};
    {| arrival := 330000; filter_time := 330001; push_time := 330002;
       payload := control_change 0 80 127 |};
    {| arrival := 390000; filter_time := 390001; push_time := 390002;
       payload := program_change 0 0 |} ].

(** Two taps on program 1, a manual toggle of loop 0, then the third tap. *)
Definition toggle_then_tap : list event :=
  [ {| arrival := 700000; filter_time := 700001; push_time := 700002;
       payload := control_change 0 83 127 |};
    {| arrival := 900000; filter_time := 900001; push_time := 900002;
       payload := program_change 0 1 |} ].

(** The messages sent and the tables written, in order. *)
Definition sent (tr : list effect) : list message :=
  flat_map (fun x => match x with Send m => [m] | Save _ => [] end) tr.

Definition saved (tr : list effect) : list (list (list bool)) :=
  flat_map (fun x => match x with Send _ => [] | Save t => [t] end) tr.

(** Lines 106-107 on one row: the row with the flag of [loop] inverted. *)
Definition flip_loop (loop : Z) (row : list bool) : option (list bool) :=
  match py_getitem row loop with
  | Some b => py_setitem row loop (negb b)
  | None => None
  end.

(** The event of a message handled with the clock readings [now1], [now2]
    and [now3]; every event is one. *)
Definition event_of (now1 now2 now3 : Z) (msg : message) : event :=
  {| arrival := now1; filter_time := now2; push_time := now3; payload := msg |}.

(** A channel mido accepts when it builds a message; for any other it raises
    ValueError, which the constructor would meet in its first
    [apply_program].  What is proved of the constructor and of whole sessions
    is proved for an [out_channel] of this kind. *)
Definition midi_channel (ch : Z) : Prop := 0 <= ch <= 15.

(** A program change as MIDI has it: the program number is not negative. *)
Definition midi_program (msg : message) : Prop :=
  match msg with
  | program_change _ p => 0 <= p
  | _ => True
  end.

(** An event whose three clock readings are [t], [t + 1] and [t + 2]
    microseconds. *)
Definition event_at (t : Z) (msg : message) : event :=
  {| arrival := t; filter_time := t + 1; push_time := t + 2; payload := msg |}.

(** Lines 186-188: the mapper is constructed, then handles the messages of
    the input port one after the other; an exception ends the loop. *)
Definition session (c : config) (store : option (list (list bool)))
  (now_a now_b : Z) (evs : list event) : result unit :=
  match init c store now_a now_b with
  | Ok _ s tr =>
      match run evs s with
      | Ok a s' tr' => Ok a s' (tr ++ tr')
      | Raise e s' tr' => Raise e s' (tr ++ tr')
      end
  | Raise e s tr => Raise e s tr
  end.

(** A computation never writes the state file. *)
Definition writes_nothing {A : Type} (m : M A) : Prop :=
  forall s, saved (effects_of (m s)) = [].

(** A computation that returns leaves the state file in step with the
    table, if it found it so. *)
Definition synced {A : Type} (m : M A) : Prop :=
  forall s a s' tr,
    m s = Ok a s' tr ->
    store_after (Some (programs s)) tr = Some (programs s').

(** The lengths of the rows of the table. *)
Definition shape (s : mapper) : list nat := map (@length bool) (programs s).

(** The table the constructor works on: the one of the state file, or the
    default one when there is no file. *)
Definition initial_table (c : config) (store : option (list (list bool)))
  : list (list bool) :=
  match store with
  | Some table => table
  | None => default_programs c
  end.


(** [i] is an index Python accepts for a sequence of [n] items. *)
Definition in_range (n : nat) (i : Z) : Prop :=
  - Z.of_nat n <= i < Z.of_nat n.



(** A session on the default configuration, without a state file: three
    taps on program 5, two edits, and the way out. *)
Definition rehearsal : list event :=
  [ event_at 1000000 (program_change 0 5);
    event_at 1300000 (program_change 0 5);
    event_at 1600000 (program_change 0 5);
    event_at 2000000 (control_change 0 80 127);
    event_at 2400000 (control_change 0 82 127);
    event_at 2800000 (other_voice 0);
    event_at 3200000 (program_change 0 35);
    event_at 3600000 (control_change 0 83 0) ].

(** What keeps [active_program] inside the table: it is inside; in edit
    mode the newest program of the history is the one being edited; in
    program mode, when the two newest programs of the history are equal, that
    program is inside the table as well. *)
Definition settled (s : mapper) : Prop :=
  in_range (length (programs s)) (active_program s) /\
  length (ts_history s) = 3%nat /\
  exists h0 h1 h2,
    program_history s = [h0; h1; h2] /\
    (edit_mode s = true -> h2 = active_program s) /\
    (edit_mode s = false -> h1 = h2 -> in_range (length (programs s)) h2).

(** The part of the object a loop control never touches. *)
Definition selection (s : mapper) : list Z * list Z * bool * Z :=
  (ts_history s, program_history s, edit_mode s, active_program s).

(** ** Port discovery *)

(** [port_name in i] on Python strings: [port_name] occurs somewhere in
    [i]. *)
Definition contains (port_name i : String.string) : bool :=
  match String.index 0 port_name i with
  | Some _ => true
  | None => false
  end.

(** The [for] loop of [get_port] over one answer of
    [mido.get_input_names()]. *)
Fixpoint first_match (port_name : String.string) (names : list String.string)
  : option String.string :=
  match names with
  | [] => None
  | i :: rest => if contains port_name i then Some i
                 else first_match port_name rest
  end.

(** [get_port(port_name)].  [polls] holds the successive answers of
    [mido.get_input_names()], one for each turn of the [while True] loop, with
    [time.sleep(poll_interval)] between two turns; [None] says that the
    function has not returned by the end of [polls]. *)
Fixpoint get_port (port_name : String.string) (polls : list (list String.string))
  : option String.string :=
  match polls with
  | [] => None
  | names :: later =>
      match first_match port_name names with
      | Some i => Some i
      | None => get_port port_name later
      end
  end.

(** [port_name] is a substring of [i]. *)
Definition occurs_in (port_name i : String.string) : Prop :=
  exists m, String.substring m (String.length port_name) i = port_name.

(** Two answers of the port listing, the device plugged in between. *)
Definition listings : list (list String.string) :=
  [ ["Midi Through:Midi Through Port-0 14:0"%string];
    ["Midi Through:Midi Through Port-0 14:0"%string;
     "MidiLink Mini:MidiLink Mini MIDI 1 20:0"%string;
     "MidiLink Mini:MidiLink Mini MIDI 2 20:1"%string] ].

(** Edit mode on program 1 entered after a manual toggle of loop 0:
    [active_state] is not the table's row. *)
Definition diverged : mapper :=
  {| conf := default_config;
     programs := [[false; false; false; false]; [true; false; false; true]];
     edit_mode := true; active_program := 1;
     active_state := [false; false; false; true];
     ts_history := [200000; 500000; 900002]; program_history := [1; 1; 1];
     last_ts := 900000 |}.

(** Program mode on program 0 of a table with two different rows. *)
Definition diverging : mapper :=
  {| conf := default_config;
     programs := [[false; false; false; false]; [true; false; false; true]];
     edit_mode := false; active_program := 0;
     active_state := [false; false; false; false];
     ts_history := [0; 0; 0]; program_history := [-1; -1; -1];
     last_ts := 0 |}.

(** What makes a triple tap harmless to [active_program]: the history is
    full; in edit mode its newest program is the one being edited; in program
    mode, when its two newest programs are one and the same MIDI program,
    that program is the active one. *)
Definition tap_tracks_active (s : mapper) : Prop :=
  history_full s /\
  exists h0 h1 h2,
    program_history s = [h0; h1; h2] /\
    (edit_mode s = true -> h2 = active_program s) /\
    (edit_mode s = false -> h1 = h2 -> 0 <= h2 -> h2 = active_program s).

(** A state file with two different programs, and a manual toggle of loop 0
    as the only message so far. *)
Definition two_programs : list (list bool) :=
  [[false; false; false; false]; [true; false; false; true]].

Definition one_toggle : list event :=
  [event_of 200000 200037 200058 (control_change 0 83 127)].

(** * Proofs *)

(** ** Stepping through the monad *)

Section MonadSteps.
Context {A B : Type}.
Variable k : A -> M B.
Variable s : mapper.

Lemma nil_prefix (r : result B) :
  match r with
  | Ok b s2 tr2 => Ok b s2 ([] ++ tr2)
  | Raise e s2 tr2 => Raise e s2 ([] ++ tr2)
  end = r.
Proof. destruct r; reflexivity. Qed.

Lemma bind_ret (a : A) : bind (ret a) k s = k a s.
Proof. unfold bind, ret. apply nil_prefix. Qed.

Lemma bind_gets (f : mapper -> A) : bind (gets f) k s = k (f s) s.
Proof. unfold bind, gets. apply nil_prefix. Qed.

Lemma bind_raise (e : exn) : bind (raise e) k s = Raise e s [].
Proof. reflexivity. Qed.

Lemma bind_or_raise_some e o (a : A) :
  o = Some a -> bind (or_raise e o) k s = k a s.
Proof. intros ->. apply bind_ret. Qed.

Lemma bind_or_raise_none e (o : option A) :
  o = None -> bind (or_raise e o) k s = Raise e s [].
Proof. intros ->. reflexivity. Qed.
End MonadSteps.

Section UnitSteps.
Context {B : Type}.
Variable k : unit -> M B.
Variable s : mapper.

Lemma bind_modify (f : mapper -> mapper) : bind (modify f) k s = k tt (f s).
Proof. unfold bind, modify. apply nil_prefix. Qed.

Lemma bind_emit (x : effect) :
  bind (emit x) k s =
  match k tt s with
  | Ok b s2 tr => Ok b s2 (x :: tr)
  | Raise e s2 tr => Raise e s2 (x :: tr)
  end.
Proof. reflexivity. Qed.
End UnitSteps.

Lemma bind_assoc {A B C : Type} (m : M A) (f : A -> M B) (g : B -> M C) s :
  bind (bind m f) g s = bind m (fun a => bind (f a) g) s.
Proof.
  unfold bind. destruct (m s) as [a s1 tr1 | e s1 tr1]; [| reflexivity].
  destruct (f a s1) as [b s2 tr2 | e s2 tr2]; [| reflexivity].
  destruct (g b s2); now rewrite app_assoc.
Qed.

Ltac fields :=
  cbn [conf programs edit_mode active_program active_state ts_history
       program_history last_ts set_programs set_edit_mode set_active_program
       set_active_state set_ts_history set_program_history set_last_ts
       state_of effects_of or_raise].

Ltac fields_in H :=
  cbn [conf programs edit_mode active_program active_state ts_history
       program_history last_ts set_programs set_edit_mode set_active_program
       set_active_state set_ts_history set_program_history set_last_ts
       state_of effects_of or_raise] in H.

Ltac mstep :=
  repeat progress
    (fields; cbv beta;
     try first [ rewrite bind_gets | rewrite bind_modify | rewrite bind_ret
               | rewrite bind_raise | rewrite bind_assoc ]).

(** ** Python sequences *)

Lemma py_pos_lt n i k : py_pos n i = Some k -> (k < n)%nat.
Proof.
  unfold py_pos.
  destruct ((0 <=? i) && (i <? Z.of_nat n)) eqn:E1.
  - apply andb_prop in E1 as [H1 H2]. intros [= <-]. lia.
  - destruct ((- Z.of_nat n <=? i) && (i <? 0)) eqn:E2; [| discriminate].
    apply andb_prop in E2 as [H1 H2]. intros [= <-]. lia.
Qed.

Lemma length_replace_nth {A : Type} (l : list A) k v :
  length (replace_nth k v l) = length l.
Proof.
  revert k. induction l as [| x t IH]; intros [| k]; cbn; auto.
Qed.

Lemma nth_error_replace_nth_eq {A : Type} (l : list A) k v :
  (k < length l)%nat -> nth_error (replace_nth k v l) k = Some v.
Proof.
  revert k. induction l as [| x t IH]; intros [| k] H; cbn in *; try lia; auto.
  apply IH. lia.
Qed.

Lemma nth_error_replace_nth_ne {A : Type} (l : list A) k j v :
  k <> j -> nth_error (replace_nth k v l) j = nth_error l j.
Proof.
  revert k j.
  induction l as [| x t IH]; intros [| k] [| j] H; cbn; try congruence.
  apply IH. congruence.
Qed.

Lemma py_setitem_defined {A : Type} (l : list A) i x v :
  py_getitem l i = Some x -> exists l', py_setitem l i v = Some l'.
Proof.
  unfold py_getitem, py_setitem. destruct (py_pos (length l) i); [| discriminate].
  eauto.
Qed.

Lemma py_getitem_defined {A : Type} (l l' : list A) i v :
  py_setitem l i v = Some l' -> exists x, py_getitem l i = Some x.
Proof.
  unfold py_getitem, py_setitem.
  destruct (py_pos (length l) i) as [k |] eqn:E; [| discriminate].
  intros _. apply py_pos_lt in E.
  destruct (nth_error l k) eqn:N; eauto.
  apply nth_error_None in N. lia.
Qed.

Lemma py_getitem_setitem_eq {A : Type} (l l' : list A) i v :
  py_setitem l i v = Some l' -> py_getitem l' i = Some v.
Proof.
  unfold py_getitem, py_setitem.
  destruct (py_pos (length l) i) as [k |] eqn:E; [| discriminate].
  intros [= <-]. rewrite length_replace_nth, E.
  apply nth_error_replace_nth_eq. eapply py_pos_lt; eauto.
Qed.

Lemma py_getitem_setitem_ne {A : Type} (l l' : list A) i j v :
  py_setitem l i v = Some l' ->
  py_pos (length l) i <> py_pos (length l) j ->
  py_getitem l' j = py_getitem l j.
Proof.
  unfold py_getitem, py_setitem.
  destruct (py_pos (length l) i) as [k |] eqn:E; [| discriminate].
  intros [= <-] Hne. rewrite length_replace_nth.
  destruct (py_pos (length l) j) as [k' |]; [| reflexivity].
  apply nth_error_replace_nth_ne. congruence.
Qed.

(** ** Program encoding *)

Lemma looper_programs_pair a b : looper_programs [a; b] = Some (pair_digit a b).
Proof. destruct a, b; reflexivity. Qed.

Lemma apply_program_four s f0 f1 f2 f3 :
  py_getitem (programs s) (active_program s) = Some [f0; f1; f2; f3] ->
  apply_program s =
  Ok tt (set_active_state [f0; f1; f2; f3] s)
     [Send (program_change (out_channel (conf s)) (encode f0 f1 f2 f3))].
Proof.
  intros H. unfold apply_program. mstep.
  rewrite (bind_or_raise_some _ _ _ _ _ H). mstep.
  cbn [firstn skipn]. rewrite !looper_programs_pair. mstep.
  unfold emit, encode.
  now replace (1 + pair_digit f0 f1) with (pair_digit f0 f1 + 1) by lia.
Qed.

(** The object [apply_program] leaves behind differs from the one it found
    in [active_state] at most. *)
Lemma apply_program_state s :
  exists state, state_of (apply_program s) = set_active_state state s.
Proof.
  unfold apply_program. mstep.
  destruct (py_getitem (programs s) (active_program s)) as [row |]; mstep.
  - exists row.
    destruct (looper_programs (firstn 2 row)); mstep; [| reflexivity].
    destruct (looper_programs (skipn 2 row)); mstep; reflexivity.
  - exists (active_state s). destruct s; reflexivity.
Qed.

Lemma looper_programs_long a b c rest : looper_programs (a :: b :: c :: rest) = None.
Proof. destruct a, b; reflexivity. Qed.

(** ** Admission *)

Lemma handle_debounced now1 now2 now3 msg s :
  now1 - last_ts s < timedelta_ms 100 ->
  handle now1 now2 now3 msg s = Ok tt (set_last_ts now1 s) [].
Proof.
  intros H. apply Z.ltb_lt in H.
  unfold handle. mstep. now rewrite H.
Qed.

Lemma handle_admitted now1 now2 now3 msg s :
  admitted now1 now2 msg s ->
  handle now1 now2 now3 msg s = dispatch now3 msg (set_last_ts now1 s).
Proof.
  intros (Hd & Hc & newest & Hn & Hf).
  apply Z.ltb_ge in Hd.
  unfold handle. mstep. rewrite Hd.
  rewrite (bind_or_raise_some _ _ _ _ _ Hc). mstep.
  rewrite Z.eqb_refl. mstep.
  rewrite (bind_or_raise_some _ _ _ _ _ Hn). mstep.
  assert ((now2 - newest >? timedelta_ms 100) = true) as ->
    by (apply Z.gtb_lt; lia).
  reflexivity.
Qed.

(** A control change leaves the event history alone and goes straight to
    the branch of the current mode. *)
Lemma dispatch_control_change now3 ch control value s :
  dispatch now3 (control_change ch control value) s =
  if edit_mode s then handle_edit (control_change ch control value) s
  else handle_normal (control_change ch control value) s.
Proof.
  unfold dispatch. cbn [record_program_change]. mstep.
  now destruct (edit_mode s).
Qed.

(** A program change on a full history pushes the pair and then goes to the
    branch of the current mode. *)
Lemma dispatch_program_change now3 ch p s t0 t1 t2 p0 p1 p2 :
  ts_history s = [t0; t1; t2] ->
  program_history s = [p0; p1; p2] ->
  dispatch now3 (program_change ch p) s =
  let s' := set_program_history [p1; p2; p] (set_ts_history [t1; t2; now3] s) in
  if edit_mode s then handle_edit (program_change ch p) s'
  else handle_normal (program_change ch p) s'.
Proof.
  intros Ht Hp. unfold dispatch. cbn [record_program_change]. mstep.
  rewrite Ht. cbn [popleft app]. mstep.
  rewrite Hp. cbn [popleft app]. mstep.
  now destruct (edit_mode s).
Qed.

(** ** Claims *)

(** C2 (amended): for a LoopConfiguration of exactly four flags the
    encoding is 10 * (left digit + 1) + right digit, the digits read from the
    pairs (flag 0, flag 1) and (flag 2, flag 3) by the table, and it is sent
    as one program change on the output channel; with any flag beyond the
    fourth the right-hand slice is no key of the table, KeyError is raised
    and nothing is sent. *)
Theorem apply_program_encodes s f0 f1 f2 f3 rest :
  py_getitem (programs s) (active_program s) = Some (f0 :: f1 :: f2 :: f3 :: rest) ->
  apply_program s =
  match rest with
  | [] =>
      Ok tt (set_active_state [f0; f1; f2; f3] s)
         [Send (program_change (out_channel (conf s)) (encode f0 f1 f2 f3))]
  | _ :: _ =>
      Raise KeyError (set_active_state (f0 :: f1 :: f2 :: f3 :: rest) s) []
  end.
Proof.
  intros H. destruct rest as [| f4 rest].
  - now apply apply_program_four.
  - unfold apply_program. mstep.
    rewrite (bind_or_raise_some _ _ _ _ _ H). mstep.
    cbn [firstn skipn]. rewrite looper_programs_pair. mstep.
    rewrite looper_programs_long. now mstep.
Qed.

Lemma apply_program_encodes_witness :
  apply_program (set_programs [[true; false; true; true]] fresh) =
  Ok tt (set_active_state [true; false; true; true]
           (set_programs [[true; false; true; true]] fresh))
     [Send (program_change 3 23)].
Proof.
  apply (apply_program_encodes (set_programs [[true; false; true; true]] fresh)
           true false true true []).
  reflexivity.
Defined.

(** C2 as stated fails on a configuration of five flags: nothing is sent. *)
Lemma apply_program_five_flags :
  (4 <= length [false; false; false; false; false])%nat /\
  py_getitem (programs five_flags) (active_program five_flags)
    = Some [false; false; false; false; false] /\
  apply_program five_flags
    = Raise KeyError
        (set_active_state [false; false; false; false; false] five_flags) [] /\
  effects_of (apply_program five_flags)
    <> [Send (program_change (out_channel (conf five_flags))
                (encode false false false false))].
Proof.
  split; [cbn; lia |]. split; [reflexivity |]. split; [reflexivity |].
  discriminate.
Qed.

(** C1 (amended): in edit mode on a program whose four loops are off, an
    admitted control change on control 82 turns flag 1 of that program on and
    leaves the other programs as they were, sends one program change, whose
    number is 30 (the encoding of off, on, off, off: left digit 2, right
    digit 0), and writes the whole updated table to the state file. *)
Theorem edit_control_82 now1 now2 now3 ch value s :
  edit_mode s = true ->
  py_getitem (programs s) (active_program s) = Some [false; false; false; false] ->
  admitted now1 now2 (control_change ch 82 value) s ->
  exists table',
    py_setitem (programs s) (active_program s) [false; true; false; false]
      = Some table' /\
    py_getitem table' (active_program s) = Some [false; true; false; false] /\
    (forall q, py_pos (length (programs s)) (active_program s)
                 <> py_pos (length (programs s)) q ->
               py_getitem table' q = py_getitem (programs s) q) /\
    handle now1 now2 now3 (control_change ch 82 value) s
      = Ok tt
          (set_active_state [false; true; false; false]
             (set_programs table' (set_last_ts now1 s)))
          [Send (program_change (out_channel (conf s)) 30); Save table'] /\
    (forall store,
        store_after store
          (effects_of (handle now1 now2 now3 (control_change ch 82 value) s))
        = Some table').
Proof.
  intros Hmode Hrow Hadm.
  destruct (py_setitem_defined _ _ _ [false; true; false; false] Hrow)
    as [table' Hset].
  exists table'. split; [exact Hset |].
  pose proof (py_getitem_setitem_eq _ _ _ _ Hset) as Hget.
  split; [exact Hget |].
  split; [intros q Hq; now apply (py_getitem_setitem_ne _ _ _ _ _ Hset) |].
  assert (handle now1 now2 now3 (control_change ch 82 value) s
          = Ok tt
              (set_active_state [false; true; false; false]
                 (set_programs table' (set_last_ts now1 s)))
              [Send (program_change (out_channel (conf s)) 30); Save table'])
    as Hrun.
  { rewrite (handle_admitted _ _ _ _ _ Hadm), dispatch_control_change.
    fields. rewrite Hmode. unfold handle_edit.
    change ((80 <=? 82) && (82 <=? 83)) with true. cbv zeta.
    change (3 - 82 + 80) with 1. mstep.
    rewrite (bind_or_raise_some _ _ _ _ _ Hrow). mstep.
    change (py_getitem [false; false; false; false] 1) with (Some false).
    mstep.
    change (py_setitem [false; false; false; false] 1 (negb false))
      with (Some [false; true; false; false]).
    mstep. rewrite (bind_or_raise_some _ _ _ _ _ Hset). mstep.
    unfold bind at 1.
    rewrite (apply_program_four _ false true false false) by exact Hget.
    fields. unfold save_programs. now mstep. }
  split; [exact Hrun |].
  intros store. rewrite Hrun. reflexivity.
Qed.

Lemma edit_control_82_witness :
  exists table',
    py_setitem (programs editing) (active_program editing)
      [false; true; false; false] = Some table' /\
    py_getitem table' (active_program editing)
      = Some [false; true; false; false] /\
    (forall q, py_pos (length (programs editing)) (active_program editing)
                 <> py_pos (length (programs editing)) q ->
               py_getitem table' q = py_getitem (programs editing) q) /\
    handle 1000000 1000001 1000002 (control_change 0 82 127) editing
      = Ok tt
          (set_active_state [false; true; false; false]
             (set_programs table' (set_last_ts 1000000 editing)))
          [Send (program_change (out_channel (conf editing)) 30); Save table'] /\
    (forall store,
        store_after store
          (effects_of
             (handle 1000000 1000001 1000002 (control_change 0 82 127) editing))
        = Some table').
Proof.
  apply (edit_control_82 1000000 1000001 1000002 0 127 editing).
  - reflexivity.
  - reflexivity.
  - split; [vm_compute; discriminate |]. split; [reflexivity |].
    exists 800000. split; [reflexivity | reflexivity].
Defined.

(** C1 as stated fails on the number sent: it is 30, and no program change
    numbered 12 leaves the mapper. *)
Lemma edit_control_82_sends_30 :
  edit_mode editing = true /\
  py_getitem (programs editing) (active_program editing)
    = Some [false; false; false; false] /\
  effects_of (handle 1000000 1000001 1000002 (control_change 0 82 127) editing)
    = [Send (program_change 3 30);
       Save [[false; false; false; false]; [false; true; false; false]]] /\
  ~ In (Send (program_change 3 12))
       (effects_of
          (handle 1000000 1000001 1000002 (control_change 0 82 127) editing)).
Proof.
  split; [reflexivity |]. split; [reflexivity |]. split; [reflexivity |].
  cbn. intros [H | [H | []]]; discriminate.
Qed.

(** C4 (amended): an event that arrives less than 100ms after the previous
    call of [handle] is rejected whatever its type, channel or content:
    nothing is sent or written and the object is left as it was, except that
    the debounce clock now holds the arrival time of the rejected event. *)
Theorem debounce_rejects now1 now2 now3 msg s :
  now1 - last_ts s < timedelta_ms 100 ->
  handle now1 now2 now3 msg s = Ok tt (set_last_ts now1 s) [] /\
  last_ts (state_of (handle now1 now2 now3 msg s)) = now1.
Proof.
  intros H. rewrite (handle_debounced _ _ _ _ _ H). now split.
Qed.

Lemma debounce_rejects_witness :
  handle 50000 50001 50002 system_message fresh
    = Ok tt (set_last_ts 50000 fresh) [] /\
  last_ts (state_of (handle 50000 50001 50002 system_message fresh)) = 50000.
Proof.
  apply (debounce_rejects 50000 50001 50002 system_message fresh).
  reflexivity.
Defined.

(** C4 as stated fails: the rejected event does change the object, in its
    debounce clock. *)
Lemma debounce_moves_clock :
  50000 - last_ts fresh < timedelta_ms 100 /\
  state_of (handle 50000 50000 50000 (program_change 0 1) fresh) <> fresh /\
  last_ts (state_of (handle 50000 50000 50000 (program_change 0 1) fresh))
    <> last_ts fresh.
Proof.
  split; [reflexivity |]. split; [| discriminate].
  intros H. apply (f_equal last_ts) in H. discriminate H.
Qed.

(** C6: in program mode an admitted control change on a control between 80
    and 83 flips the flag of loop [3 - (c - 80)] in [active_state] and no
    other, sends one control change on the output channel with control
    [80 + loop] and value 127 when the loop is now on and 0 when it is off,
    and leaves the program table and the state file untouched. *)
Theorem manual_toggle now1 now2 now3 ch c value s b :
  edit_mode s = false ->
  80 <= c <= 83 ->
  admitted now1 now2 (control_change ch c value) s ->
  py_getitem (active_state s) (3 - (c - 80)) = Some b ->
  let loop := 3 - (c - 80) in
  let r := handle now1 now2 now3 (control_change ch c value) s in
  exists state',
    py_setitem (active_state s) loop (negb b) = Some state' /\
    py_getitem state' loop = Some (negb b) /\
    (forall j, py_pos (length (active_state s)) loop
                 <> py_pos (length (active_state s)) j ->
               py_getitem state' j = py_getitem (active_state s) j) /\
    r = Ok tt (set_active_state state' (set_last_ts now1 s))
          [Send (control_change (out_channel (conf s)) (80 + loop)
                   (if negb b then 127 else 0))] /\
    programs (state_of r) = programs s /\
    (forall store, store_after store (effects_of r) = store).
Proof.
  intros Hmode Hc Hadm Hb loop r.
  destruct (py_setitem_defined _ _ _ (negb b) Hb) as [state' Hset].
  pose proof (py_getitem_setitem_eq _ _ _ _ Hset) as Hget.
  exists state'. split; [exact Hset |]. split; [exact Hget |].
  split; [intros j Hj; now apply (py_getitem_setitem_ne _ _ _ _ _ Hset) |].
  assert (r = Ok tt (set_active_state state' (set_last_ts now1 s))
                [Send (control_change (out_channel (conf s)) (80 + loop)
                         (if negb b then 127 else 0))]) as Hrun.
  { subst r. rewrite (handle_admitted _ _ _ _ _ Hadm), dispatch_control_change.
    fields. rewrite Hmode. unfold handle_normal.
    replace ((80 <=? c) && (c <=? 83)) with true
      by (symmetry; apply andb_true_intro; split; apply Z.leb_le; lia).
    cbv zeta. replace (3 - c + 80) with loop by (subst loop; lia). mstep.
    rewrite (bind_or_raise_some _ _ _ _ _ Hb). mstep.
    rewrite (bind_or_raise_some _ _ _ _ _ Hset). mstep.
    rewrite (bind_or_raise_some _ _ _ _ _ Hget). mstep.
    unfold emit. now destruct b. }
  rewrite Hrun. now repeat split.
Qed.

Lemma manual_toggle_witness :
  exists state',
    py_setitem (active_state playing) 0 (negb false) = Some state' /\
    py_getitem state' 0 = Some (negb false) /\
    (forall j, py_pos (length (active_state playing)) 0
                 <> py_pos (length (active_state playing)) j ->
               py_getitem state' j = py_getitem (active_state playing) j) /\
    handle 200000 200001 200002 (control_change 0 83 127) playing
      = Ok tt (set_active_state state' (set_last_ts 200000 playing))
          [Send (control_change 3 80 127)] /\
    programs (state_of (handle 200000 200001 200002 (control_change 0 83 127)
                          playing))
      = programs playing /\
    (forall store,
        store_after store
          (effects_of (handle 200000 200001 200002 (control_change 0 83 127)
                         playing))
        = store).
Proof.
  apply (manual_toggle 200000 200001 200002 0 83 127 playing false).
  - reflexivity.
  - lia.
  - split; [vm_compute; discriminate |]. split; [reflexivity |].
    exists 0. split; reflexivity.
  - reflexivity.
Defined.

(** C7: in edit mode an admitted program change for another program than
    the one being edited switches edit mode off and does nothing else: the
    program table, [active_program] and [active_state] stay as they were,
    nothing is sent and nothing is written; the history and the debounce
    clock take the event as admission does. *)
Theorem edit_exit now1 now2 now3 ch q s t0 t1 t2 p0 p1 p2 :
  edit_mode s = true ->
  q <> active_program s ->
  ts_history s = [t0; t1; t2] ->
  program_history s = [p0; p1; p2] ->
  admitted now1 now2 (program_change ch q) s ->
  let r := handle now1 now2 now3 (program_change ch q) s in
  r = Ok tt
        (set_edit_mode false
           (set_program_history [p1; p2; q]
              (set_ts_history [t1; t2; now3] (set_last_ts now1 s))))
        [] /\
  edit_mode (state_of r) = false /\
  programs (state_of r) = programs s /\
  active_program (state_of r) = active_program s /\
  active_state (state_of r) = active_state s /\
  (forall store, store_after store (effects_of r) = store).
Proof.
  intros Hmode Hq Ht Hp Hadm r.
  assert (r = Ok tt
                (set_edit_mode false
                   (set_program_history [p1; p2; q]
                      (set_ts_history [t1; t2; now3] (set_last_ts now1 s))))
                []) as Hrun.
  { subst r. rewrite (handle_admitted _ _ _ _ _ Hadm).
    rewrite (dispatch_program_change _ _ _ _ t0 t1 t2 p0 p1 p2) by assumption.
    cbv zeta. fields. rewrite Hmode. unfold handle_edit. mstep.
    change (py_getitem [p1; p2; q] (-1)) with (Some q). mstep.
    apply Z.eqb_neq in Hq. rewrite Hq. reflexivity. }
  rewrite Hrun. now repeat split.
Qed.

Lemma edit_exit_witness :
  let r := handle 1000000 1000001 1000002 (program_change 0 0) editing in
  r = Ok tt
        (set_edit_mode false
           (set_program_history [1; 1; 0]
              (set_ts_history [400000; 800000; 1000002]
                 (set_last_ts 1000000 editing))))
        [] /\
  edit_mode (state_of r) = false /\
  programs (state_of r) = programs editing /\
  active_program (state_of r) = active_program editing /\
  active_state (state_of r) = active_state editing /\
  (forall store, store_after store (effects_of r) = store).
Proof.
  apply (edit_exit 1000000 1000001 1000002 0 0 editing 100000 400000 800000 1 1 1).
  - reflexivity.
  - discriminate.
  - reflexivity.
  - reflexivity.
  - split; [vm_compute; discriminate |]. split; [reflexivity |].
    exists 800000. split; reflexivity.
Defined.

(** C10: in edit mode an admitted program change for the program being
    edited changes nothing but the event history and the debounce clock: the
    mode, the program table, [active_program] and [active_state] stay, nothing
    is sent and nothing is written. *)
Theorem edit_same_program now1 now2 now3 ch s t0 t1 t2 p0 p1 p2 :
  edit_mode s = true ->
  ts_history s = [t0; t1; t2] ->
  program_history s = [p0; p1; p2] ->
  admitted now1 now2 (program_change ch (active_program s)) s ->
  let r := handle now1 now2 now3 (program_change ch (active_program s)) s in
  r = Ok tt
        (set_program_history [p1; p2; active_program s]
           (set_ts_history [t1; t2; now3] (set_last_ts now1 s)))
        [] /\
  edit_mode (state_of r) = true /\
  programs (state_of r) = programs s /\
  active_program (state_of r) = active_program s /\
  active_state (state_of r) = active_state s /\
  (forall store, store_after store (effects_of r) = store).
Proof.
  intros Hmode Ht Hp Hadm r.
  assert (r = Ok tt
                (set_program_history [p1; p2; active_program s]
                   (set_ts_history [t1; t2; now3] (set_last_ts now1 s)))
                []) as Hrun.
  { subst r. rewrite (handle_admitted _ _ _ _ _ Hadm).
    rewrite (dispatch_program_change _ _ _ _ t0 t1 t2 p0 p1 p2) by assumption.
    cbv zeta. fields. rewrite Hmode. unfold handle_edit. mstep.
    change (py_getitem [p1; p2; active_program s] (-1))
      with (Some (active_program s)).
    mstep. rewrite Z.eqb_refl. reflexivity. }
  rewrite Hrun. now repeat split.
Qed.

Lemma edit_same_program_witness :
  let r := handle 1000000 1000001 1000002 (program_change 0 1) editing in
  r = Ok tt
        (set_program_history [1; 1; 1]
           (set_ts_history [400000; 800000; 1000002]
              (set_last_ts 1000000 editing)))
        [] /\
  edit_mode (state_of r) = true /\
  programs (state_of r) = programs editing /\
  active_program (state_of r) = active_program editing /\
  active_state (state_of r) = active_state editing /\
  (forall store, store_after store (effects_of r) = store).
Proof.
  apply (edit_same_program 1000000 1000001 1000002 0 editing
           100000 400000 800000 1 1 1).
  - reflexivity.
  - reflexivity.
  - reflexivity.
  - split; [vm_compute; discriminate |]. split; [reflexivity |].
    exists 800000. split; reflexivity.
Defined.

(** ** Program mode *)

Lemma tripletap_test_full s a b c x y z :
  ts_history s = [a; b; c] ->
  program_history s = [x; y; z] ->
  tripletap_test s =
  Ok ((c - a <=? tripletap_time (conf s)) && (x =? y) && (y =? z)) s [].
Proof.
  intros Ht Hp. unfold tripletap_test. mstep. rewrite Ht.
  change (py_getitem [a; b; c] (-1)) with (Some c).
  change (py_getitem [a; b; c] 0) with (Some a).
  mstep. destruct (c - a <=? tripletap_time (conf s)); [| reflexivity].
  mstep. rewrite Hp.
  change (py_getitem [x; y; z] 0) with (Some x).
  change (py_getitem [x; y; z] 1) with (Some y).
  change (py_getitem [x; y; z] 2) with (Some z).
  mstep. destruct (x =? y); [| reflexivity]. now mstep.
Qed.

Lemma handle_normal_program_change ch p s a b c x y z :
  ts_history s = [a; b; c] ->
  program_history s = [x; y; z] ->
  handle_normal (program_change ch p) s =
  if (c - a <=? tripletap_time (conf s)) && (x =? y) && (y =? z) then
    Ok tt (set_active_program p (set_edit_mode true s)) []
  else if negb (active_program s =? p) then
    match py_getitem (programs s) p with
    | Some _ => apply_program (set_active_program p s)
    | None => Raise IndexError (set_active_program p s) []
    end
  else Ok tt s [].
Proof.
  intros Ht Hp. unfold handle_normal. unfold bind at 1.
  rewrite (tripletap_test_full _ _ _ _ _ _ _ Ht Hp).
  destruct ((c - a <=? tripletap_time (conf s)) && (x =? y) && (y =? z)).
  - now mstep.
  - mstep. destruct (negb (active_program s =? p)); [| reflexivity].
    mstep. destruct (py_getitem (programs s) p); mstep; [| reflexivity].
    apply nil_prefix.
Qed.

Lemma tripletap_bool p s a b c x y :
  ts_history s = [a; b; c] ->
  program_history s = [x; y; p] ->
  (c - a <=? tripletap_time (conf s)) && (x =? y) && (y =? p) = true
  <-> tripletap p s.
Proof.
  intros Ht Hp. unfold tripletap. rewrite Ht, Hp. split.
  - intros H. apply andb_prop in H as [H H3]. apply andb_prop in H as [H1 H2].
    apply Z.leb_le in H1. apply Z.eqb_eq in H2, H3. subst.
    exists a, b, c. now repeat split.
  - intros (t0 & t1 & t2 & [= -> -> ->] & [= -> ->] & Hw).
    rewrite !Z.eqb_refl, !andb_true_r. now apply Z.leb_le.
Qed.

(** C3: in program mode, an admitted program change for program [p] enters
    edit mode with [active_program = p] exactly when the event history, with
    this event pushed, holds [p] three times and spans no more than the
    triple-tap window; the test comes before the plain program switch, so that
    an event passing it is not switched on: nothing is sent. *)
Theorem tripletap_enters_edit now1 now2 now3 ch p s t0 t1 t2 p0 p1 p2 :
  edit_mode s = false ->
  ts_history s = [t0; t1; t2] ->
  program_history s = [p0; p1; p2] ->
  admitted now1 now2 (program_change ch p) s ->
  let r := handle now1 now2 now3 (program_change ch p) s in
  ts_history (state_of r) = [t1; t2; now3] /\
  program_history (state_of r) = [p1; p2; p] /\
  (edit_mode (state_of r) = true /\ active_program (state_of r) = p
   <-> tripletap p (state_of r)) /\
  (tripletap p (state_of r) ->
   r = Ok tt
         (set_active_program p
            (set_edit_mode true
               (set_program_history [p1; p2; p]
                  (set_ts_history [t1; t2; now3] (set_last_ts now1 s)))))
         []).
Proof.
  intros Hmode Ht Hp Hadm r.
  set (s' := set_program_history [p1; p2; p]
               (set_ts_history [t1; t2; now3] (set_last_ts now1 s))).
  assert (r = handle_normal (program_change ch p) s') as Hr.
  { subst r. rewrite (handle_admitted _ _ _ _ _ Hadm).
    rewrite (dispatch_program_change _ _ _ _ t0 t1 t2 p0 p1 p2) by assumption.
    cbv zeta. fields. now rewrite Hmode. }
  assert (ts_history s' = [t1; t2; now3]) as Ht' by reflexivity.
  assert (program_history s' = [p1; p2; p]) as Hp' by reflexivity.
  rewrite (handle_normal_program_change _ _ _ _ _ _ _ _ _ Ht' Hp') in Hr.
  pose proof (tripletap_bool p s' _ _ _ _ _ Ht' Hp') as Hiff.
  destruct ((now3 - t1 <=? tripletap_time (conf s')) && (p1 =? p2) && (p2 =? p))
    eqn:Htap.
  - rewrite Hr. fields.
    assert (tripletap p (set_active_program p (set_edit_mode true s'))) as Htt.
    { apply andb_prop in Htap as [Htap H3]. apply andb_prop in Htap as [Hw H2].
      apply Z.leb_le in Hw. apply Z.eqb_eq in H2, H3.
      exists t1, t2, now3. split; [reflexivity |]. split; [| exact Hw].
      subst s'. fields. congruence. }
    repeat split; auto.
  - assert (edit_mode (state_of r) = false /\
            ts_history (state_of r) = [t1; t2; now3] /\
            program_history (state_of r) = [p1; p2; p] /\
            conf (state_of r) = conf s') as (Hm & Hts & Hph & Hcf).
    { rewrite Hr. destruct (negb (active_program s' =? p)).
      - destruct (py_getitem (programs s') p).
        + destruct (apply_program_state (set_active_program p s')) as [st ->].
          unfold s'. fields. now rewrite Hmode.
        + unfold s'. fields. now rewrite Hmode.
      - unfold s'. fields. now rewrite Hmode. }
    assert (~ tripletap p (state_of r)) as Hno.
    { intros (a & b & c & Ha & Hb & Hw). rewrite Hts in Ha. rewrite Hph in Hb.
      injection Ha as <- <- <-. injection Hb as -> ->. rewrite Hcf in Hw.
      rewrite !Z.eqb_refl, !andb_true_r in Htap.
      apply Z.leb_gt in Htap. lia. }
    split; [exact Hts |]. split; [exact Hph |]. split.
    + split; [intros [Hm' _]; congruence | intros Htt; contradiction].
    + intros Htt. contradiction.
Qed.

Lemma tripletap_enters_edit_witness :
  let r := handle 900000 900001 900002 (program_change 0 1) tapped_twice in
  ts_history (state_of r) = [200000; 500000; 900002] /\
  program_history (state_of r) = [1; 1; 1] /\
  (edit_mode (state_of r) = true /\ active_program (state_of r) = 1
   <-> tripletap 1 (state_of r)) /\
  (tripletap 1 (state_of r) ->
   r = Ok tt
         (set_active_program 1
            (set_edit_mode true
               (set_program_history [1; 1; 1]
                  (set_ts_history [200000; 500000; 900002]
                     (set_last_ts 900000 tapped_twice)))))
         []).
Proof.
  apply (tripletap_enters_edit 900000 900001 900002 0 1 tapped_twice
           0 200000 500000 (-1) 1 1).
  - reflexivity.
  - reflexivity.
  - reflexivity.
  - split; [vm_compute; discriminate |]. split; [reflexivity |].
    exists 500000. split; reflexivity.
Defined.

(** ** What a computation leaves alone *)

Section Preservation.
Context {X : Type}.
Variable f : mapper -> X.

Lemma preserves_ret {A : Type} (a : A) : preserves f (ret a).
Proof. intros s. reflexivity. Qed.

Lemma preserves_gets {A : Type} (g : mapper -> A) : preserves f (gets g).
Proof. intros s. reflexivity. Qed.

Lemma preserves_raise {A : Type} (e : exn) : preserves f (@raise A e).
Proof. intros s. reflexivity. Qed.

Lemma preserves_or_raise {A : Type} (e : exn) (o : option A) :
  preserves f (or_raise e o).
Proof. destruct o; intros s; reflexivity. Qed.

Lemma preserves_emit (x : effect) : preserves f (emit x).
Proof. intros s. reflexivity. Qed.

Lemma preserves_modify (g : mapper -> mapper) :
  (forall s, f (g s) = f s) -> preserves f (modify g).
Proof. intros H s. apply H. Qed.

Lemma preserves_bind {A B : Type} (m : M A) (k : A -> M B) :
  preserves f m -> (forall a, preserves f (k a)) -> preserves f (bind m k).
Proof.
  intros Hm Hk s. unfold bind. specialize (Hm s).
  destruct (m s) as [a s1 tr1 | e s1 tr1]; cbn in Hm |- *; [| exact Hm].
  specialize (Hk a s1). rewrite <- Hm.
  destruct (k a s1); exact Hk.
Qed.
End Preservation.

Ltac preserve :=
  repeat first
    [ apply preserves_ret | apply preserves_gets | apply preserves_raise
    | apply preserves_or_raise | apply preserves_emit
    | apply preserves_modify; intros ?; reflexivity
    | apply preserves_bind; [| intros ?]
    | progress cbv zeta
    | match goal with
      | |- preserves _ (if ?b then _ else _) => destruct b
      end ].

Lemma apply_program_keeps_last_ts : preserves last_ts apply_program.
Proof. unfold apply_program. preserve. Qed.

Lemma dispatch_keeps_last_ts now3 msg : preserves last_ts (dispatch now3 msg).
Proof.
  pose proof apply_program_keeps_last_ts as Happly.
  unfold dispatch, record_program_change, handle_edit, handle_normal,
    tripletap_test, save_programs.
  destruct msg; preserve; exact Happly.
Qed.

Lemma handle_sets_last_ts now1 now2 now3 msg s :
  last_ts (state_of (handle now1 now2 now3 msg s)) = now1.
Proof.
  unfold handle. mstep.
  destruct (now1 - last_ts s <? timedelta_ms 100); [reflexivity |].
  destruct (channel_of msg) as [ch |]; mstep; [| reflexivity].
  destruct (ch =? in_channel (conf s)); [| reflexivity]. mstep.
  destruct (py_getitem (ts_history s) (-1)) as [newest |]; mstep;
    [| reflexivity].
  destruct (now2 - newest >? timedelta_ms 100); [| reflexivity].
  now rewrite dispatch_keeps_last_ts.
Qed.

(** ** Runs of events *)

Lemma set_last_ts_same s : set_last_ts (last_ts s) s = s.
Proof. destruct s; reflexivity. Qed.

Lemma run_bouncing evs : forall s,
  bouncing (last_ts s) evs ->
  run evs s = Ok tt (set_last_ts (last_arrival (last_ts s) evs) s) [].
Proof.
  induction evs as [| e rest IH]; intros s H.
  - cbn. unfold ret. now rewrite set_last_ts_same.
  - destruct H as [Hnear Hrest]. cbn [run]. unfold bind, handle_event.
    rewrite (handle_debounced _ _ _ _ _ Hnear).
    rewrite (IH (set_last_ts (arrival e) s)) by exact Hrest.
    reflexivity.
Qed.

(** C9: every call of [handle] leaves the arrival time of its event in the
    debounce clock, whatever the filters then decide and even when the call
    raises; hence after any first event, a run of events each arriving less
    than 100ms after the one before is rejected to the last, however long it
    is: nothing is sent or written and only the debounce clock moves. *)
Theorem bounce_train_starves first rest s :
  bouncing (arrival first) rest ->
  let r1 := handle_event first s in
  last_ts (state_of r1) = arrival first /\
  run rest (state_of r1)
  = Ok tt (set_last_ts (last_arrival (arrival first) rest) (state_of r1)) [] /\
  forall s1 tr1,
    r1 = Ok tt s1 tr1 ->
    run (first :: rest) s
    = Ok tt (set_last_ts (last_arrival (arrival first) rest) s1) tr1.
Proof.
  intros Hb r1.
  assert (last_ts (state_of r1) = arrival first) as Hclock
    by apply handle_sets_last_ts.
  split; [exact Hclock |].
  assert (run rest (state_of r1)
          = Ok tt (set_last_ts (last_arrival (arrival first) rest) (state_of r1))
              []) as Hrest.
  { rewrite <- Hclock at 1. apply run_bouncing. now rewrite Hclock. }
  split; [exact Hrest |].
  intros s1 tr1 H1. cbn [run]. unfold bind. fold r1. rewrite H1 in *.
  cbn [state_of] in Hrest. rewrite Hrest. now rewrite app_nil_r.
Qed.

Lemma bounce_train_starves_witness :
  let r1 := handle_event press playing in
  last_ts (state_of r1) = arrival press /\
  run bounces (state_of r1)
  = Ok tt (set_last_ts (last_arrival (arrival press) bounces) (state_of r1)) [] /\
  forall s1 tr1,
    r1 = Ok tt s1 tr1 ->
    run (press :: bounces) playing
    = Ok tt (set_last_ts (last_arrival (arrival press) bounces) s1) tr1.
Proof.
  apply (bounce_train_starves press bounces playing).
  cbn. unfold timedelta_ms. lia.
Defined.

(** ** Construction *)

Lemma apply_program_cases s :
  (exists e state, apply_program s = Raise e (set_active_state state s) []) \/
  (exists row n,
      py_getitem (programs s) (active_program s) = Some row /\
      apply_program s
      = Ok tt (set_active_state row s)
          [Send (program_change (out_channel (conf s)) n)]).
Proof.
  unfold apply_program. mstep.
  destruct (py_getitem (programs s) (active_program s)) as [row |]; mstep.
  - destruct (looper_programs (firstn 2 row)) as [l |]; mstep;
      [| left; now exists KeyError, row].
    destruct (looper_programs (skipn 2 row)) as [d |]; mstep;
      [| left; now exists KeyError, row].
    right. exists row, (10 * (1 + l) + d). now split.
  - left. exists IndexError, (active_state s). destruct s; reflexivity.
Qed.

Lemma bind_apply_program_cases {B : Type} (k : unit -> M B) s :
  (exists e state,
      bind apply_program k s = Raise e (set_active_state state s) []) \/
  (exists row n,
      py_getitem (programs s) (active_program s) = Some row /\
      bind apply_program k s
      = match k tt (set_active_state row s) with
        | Ok b s2 tr =>
            Ok b s2 (Send (program_change (out_channel (conf s)) n) :: tr)
        | Raise e s2 tr =>
            Raise e s2 (Send (program_change (out_channel (conf s)) n) :: tr)
        end).
Proof.
  unfold bind.
  destruct (apply_program_cases s) as [(e & st & ->) | (row & n & Hrow & ->)].
  - left. now exists e, st.
  - right. exists row, n. now split.
Qed.

Ltac apply_cases e st row n Hrow :=
  match goal with
  | |- context [bind apply_program ?k ?s0] =>
      destruct (bind_apply_program_cases k s0)
        as [(e & st & ->) | (row & n & Hrow & ->)]
  end.

Lemma init_without_store_cases c now_a now_b :
  exists s tr,
    programs s = default_programs c /\
    (init c None now_a now_b = Ok tt s (Save (default_programs c) :: tr) \/
     exists e, init c None now_a now_b
               = Raise e s (Save (default_programs c) :: tr)) /\
    (tr = [] \/ exists n, tr = [Send (program_change (out_channel c) n)]).
Proof.
  unfold init, init_body, save_programs. mstep.
  cbn [blank conf]. rewrite bind_emit. mstep.
  apply_cases e st row n Hrow.
  - eexists _, []. split; [| split; [right; exists e; reflexivity | now left]].
    reflexivity.
  - mstep. fields_in Hrow.
    rewrite (bind_or_raise_some _ _ _ _ _ Hrow). mstep.
    unfold modify.
    eexists _, _. split; [| split; [left; reflexivity | right; now exists n]].
    reflexivity.
Qed.

(** C8: constructed without a state file, the mapper holds a table of
    [n_banks * bank_size] configurations of [n_loops] flags, all off, and the
    first thing it does is to write that table to the state file; this is so
    whether or not the rest of the constructor then succeeds. *)
Theorem init_without_store c now_a now_b :
  let r := init c None now_a now_b in
  let table := repeat (repeat false (Z.to_nat (n_loops c)))
                      (Z.to_nat (n_banks c * bank_size c)) in
  programs (state_of r) = table /\
  (exists rest, effects_of r = Save table :: rest) /\
  store_after None (effects_of r) = Some table.
Proof.
  intros r table.
  assert (default_programs c = table) as Hdef.
  { unfold default_programs, table. now rewrite Z.mul_comm. }
  destruct (init_without_store_cases c now_a now_b)
    as (s & tr & Hs & Hr & Htr).
  rewrite Hdef in *. subst r.
  destruct Hr as [-> | [e ->]]; cbn [state_of effects_of];
    (split; [exact Hs |]); (split; [now exists tr |]);
    destruct Htr as [-> | [n ->]]; reflexivity.
Qed.

(** ** ActiveState and the table *)

Lemma length_three {A : Type} (l : list A) :
  length l = 3%nat -> exists a b c, l = [a; b; c].
Proof.
  destruct l as [| a [| b [| c [| d l]]]]; try discriminate. eauto.
Qed.

Lemma admitted_dec now1 now2 msg s :
  admitted now1 now2 msg s \/ ~ admitted now1 now2 msg s.
Proof.
  unfold admitted.
  destruct (Z_le_dec (timedelta_ms 100) (now1 - last_ts s)) as [H1 | H1];
    [| right; tauto].
  destruct (channel_of msg) as [ch |];
    [| right; intros (_ & H & _); discriminate].
  destruct (Z.eq_dec ch (in_channel (conf s))) as [-> | H2];
    [| right; intros (_ & [= H] & _); contradiction].
  destruct (py_getitem (ts_history s) (-1)) as [newest |];
    [| right; intros (_ & _ & n & H & _); discriminate].
  destruct (Z_lt_dec (timedelta_ms 100) (now2 - newest)) as [H3 | H3].
  - left. eauto.
  - right. intros (_ & _ & n & [= <-] & H). contradiction.
Qed.

Lemma handle_not_admitted now1 now2 now3 msg s s' tr :
  ~ admitted now1 now2 msg s ->
  handle now1 now2 now3 msg s = Ok tt s' tr ->
  s' = set_last_ts now1 s /\ tr = [].
Proof.
  intros Hnot. unfold handle. mstep.
  destruct (now1 - last_ts s <? timedelta_ms 100) eqn:Hd;
    [intros [= <- <-]; now split |].
  destruct (channel_of msg) as [ch |] eqn:Hc; mstep; [| discriminate].
  destruct (ch =? in_channel (conf s)) eqn:Hi; [| intros [= <- <-]; now split].
  mstep.
  destruct (py_getitem (ts_history s) (-1)) as [newest |] eqn:Hn; mstep;
    [| discriminate].
  destruct (now2 - newest >? timedelta_ms 100) eqn:Hf;
    [| intros [= <- <-]; now split].
  exfalso. apply Hnot. apply Z.ltb_ge in Hd. apply Z.eqb_eq in Hi.
  apply Z.gtb_lt in Hf. subst ch. unfold admitted. eauto.
Qed.

Lemma handle_edit_program_change ch p s x y z :
  program_history s = [x; y; z] ->
  handle_edit (program_change ch p) s =
  Ok tt (if negb (z =? active_program s) then set_edit_mode false s else s) [].
Proof.
  intros Hp. unfold handle_edit. mstep. rewrite Hp.
  change (py_getitem [x; y; z] (-1)) with (Some z). mstep.
  now destruct (negb (z =? active_program s)).
Qed.

Lemma handle_edit_control_change ch c v s s' tr :
  (80 <=? c) && (c <=? 83) = true ->
  handle_edit (control_change ch c v) s = Ok tt s' tr ->
  in_step s'.
Proof.
  intros Hrange. unfold handle_edit. rewrite Hrange. cbv zeta. mstep.
  destruct (py_getitem (programs s) (active_program s)) as [row |]; mstep;
    [| discriminate].
  destruct (py_getitem row (3 - c + 80)) as [b |]; mstep; [| discriminate].
  destruct (py_setitem row (3 - c + 80) (negb b)) as [row' |]; mstep;
    [| discriminate].
  destruct (py_setitem (programs s) (active_program s) row') as [table' |];
    mstep; [| discriminate].
  apply_cases e st row'' n Hrow; [discriminate |].
  unfold save_programs. mstep. unfold emit. intros [= <- <-].
  exact Hrow.
Qed.

Lemma tripletap_same_history p s s' :
  ts_history s' = ts_history s ->
  program_history s' = program_history s ->
  conf s' = conf s ->
  tripletap p s' <-> tripletap p s.
Proof.
  intros Ht Hp Hc. unfold tripletap. now rewrite Ht, Hp, Hc.
Qed.

(** C5 as stated fails on a program change that completes a triple tap
    after a manual toggle: the mapper enters edit mode on program 1 while
    [active_state] still holds the toggled flags, not the table's entry. *)
Lemma tripletap_keeps_toggled_state :
  let r := run toggle_then_tap tapped_twice in
  in_step tapped_twice /\
  effects_of r = [Send (control_change 3 80 0)] /\
  edit_mode (state_of r) = true /\
  active_program (state_of r) = 1 /\
  program_history (state_of r) = [1; 1; 1] /\
  active_state (state_of r) = [false; false; false; true] /\
  py_getitem (programs (state_of r)) (active_program (state_of r))
    = Some [true; false; false; true] /\
  ~ in_step (state_of r).
Proof.
  cbv zeta. do 7 (split; [reflexivity |]).
  unfold in_step. vm_compute. discriminate.
Qed.

(** ** Invariants behind the hypotheses *)

(** The event history keeps its three entries through every call. *)
Lemma handle_edit_keeps_histories msg :
  preserves (fun s => (ts_history s, program_history s)) (handle_edit msg).
Proof.
  assert (preserves (fun s => (ts_history s, program_history s)) apply_program)
    as Happly by (unfold apply_program; preserve).
  unfold handle_edit, save_programs. destruct msg; preserve; exact Happly.
Qed.

Lemma handle_normal_keeps_histories msg :
  preserves (fun s => (ts_history s, program_history s)) (handle_normal msg).
Proof.
  assert (preserves (fun s => (ts_history s, program_history s)) apply_program)
    as Happly by (unfold apply_program; preserve).
  unfold handle_normal, tripletap_test. destruct msg; preserve; exact Happly.
Qed.

Lemma dispatch_keeps_history_full now3 msg s :
  history_full s -> history_full (state_of (dispatch now3 msg s)).
Proof.
  intros [Hlt Hlp].
  destruct (length_three _ Hlt) as (t0 & t1 & t2 & Ht).
  destruct (length_three _ Hlp) as (p0 & p1 & p2 & Hp).
  assert (forall s0 : mapper,
             length (ts_history s0) = 3%nat ->
             length (program_history s0) = 3%nat ->
             history_full
               (state_of ((if edit_mode s then handle_edit msg
                           else handle_normal msg) s0))) as Hbranch.
  { intros s0 H1 H2. unfold history_full.
    destruct (edit_mode s);
      [pose proof (handle_edit_keeps_histories msg s0) as H
      | pose proof (handle_normal_keeps_histories msg s0) as H];
      cbv beta in H; injection H as -> ->; now split. }
  destruct msg as [ch p | ch c v | ch |].
  - rewrite (dispatch_program_change _ _ _ _ t0 t1 t2 p0 p1 p2) by assumption.
    cbv zeta. specialize (Hbranch
      (set_program_history [p1; p2; p] (set_ts_history [t1; t2; now3] s))
      eq_refl eq_refl).
    now destruct (edit_mode s).
  - rewrite dispatch_control_change. specialize (Hbranch s Hlt Hlp).
    now destruct (edit_mode s).
  - unfold dispatch. cbn [record_program_change]. mstep.
    specialize (Hbranch s Hlt Hlp). now destruct (edit_mode s).
  - unfold dispatch. cbn [record_program_change]. mstep.
    specialize (Hbranch s Hlt Hlp). now destruct (edit_mode s).
Qed.

Lemma handle_keeps_history_full now1 now2 now3 msg s :
  history_full s -> history_full (state_of (handle now1 now2 now3 msg s)).
Proof.
  intros H. unfold handle. mstep.
  destruct (now1 - last_ts s <? timedelta_ms 100); [exact H |].
  destruct (channel_of msg) as [ch |]; mstep; [| exact H].
  destruct (ch =? in_channel (conf s)); [| exact H]. mstep.
  destruct (py_getitem (ts_history s) (-1)) as [newest |]; mstep; [| exact H].
  destruct (now2 - newest >? timedelta_ms 100); [| exact H].
  now apply dispatch_keeps_history_full.
Qed.

(** A constructor that returns leaves a full history and four flags in
    [active_state], in step with the table. *)
Lemma looper_programs_some key d :
  looper_programs key = Some d -> exists a b, key = [a; b].
Proof.
  destruct key as [| a [| b [| c key]]].
  - discriminate.
  - destruct a; discriminate.
  - eauto.
  - now rewrite looper_programs_long.
Qed.

Lemma apply_program_ok_four s s' tr :
  apply_program s = Ok tt s' tr ->
  exists f0 f1 f2 f3, active_state s' = [f0; f1; f2; f3].
Proof.
  unfold apply_program. mstep.
  destruct (py_getitem (programs s) (active_program s)) as [row |]; mstep;
    [| discriminate].
  destruct (looper_programs (firstn 2 row)) as [l |] eqn:Hl; mstep;
    [| discriminate].
  destruct (looper_programs (skipn 2 row)) as [d |] eqn:Hd; mstep;
    [| discriminate].
  unfold emit. intros [= <- _]. fields.
  apply looper_programs_some in Hl as (f0 & f1 & Hl).
  apply looper_programs_some in Hd as (f2 & f3 & Hd).
  exists f0, f1, f2, f3. rewrite <- (firstn_skipn 2 row). now rewrite Hl, Hd.
Qed.

Lemma init_establishes c store now_a now_b s tr :
  init c store now_a now_b = Ok tt s tr ->
  history_full s /\ in_step s /\ edit_mode s = false /\ active_program s = 0.
Proof.
  unfold init, init_body.
  destruct store as [table |]; unfold save_programs; mstep;
    try rewrite bind_emit; mstep.
  - apply_cases e st row n Hrow; [discriminate |].
    mstep. fields_in Hrow. rewrite (bind_or_raise_some _ _ _ _ _ Hrow). mstep.
    unfold modify. intros [= <- _]. repeat split. exact Hrow.
  - apply_cases e st row n Hrow; [discriminate |].
    mstep. fields_in Hrow. rewrite (bind_or_raise_some _ _ _ _ _ Hrow). mstep.
    unfold modify. intros [= <- _]. repeat split. exact Hrow.
Qed.

(** * Further properties of the code *)

(** ** Program encoding *)

Lemma pair_digit_range a b : 0 <= pair_digit a b <= 3.
Proof. destruct a, b; cbn; lia. Qed.

Lemma pair_digit_injective a b a' b' :
  pair_digit a b = pair_digit a' b' -> a = a' /\ b = b'.
Proof. destruct a, b, a', b'; cbn; intros H; try discriminate H; now split. Qed.

(** X1: the number [apply_program] sends for a row of four flags lies
    between 10 and 43, and its decimal digits give the two pairs back: the
    tens digit less one is the digit of flags 0 and 1, the units digit that of
    flags 2 and 3. *)
Theorem apply_program_digits s f0 f1 f2 f3 :
  py_getitem (programs s) (active_program s) = Some [f0; f1; f2; f3] ->
  exists n,
    sent (effects_of (apply_program s))
      = [program_change (out_channel (conf s)) n] /\
    10 <= n <= 43 /\
    n / 10 - 1 = pair_digit f0 f1 /\
    n mod 10 = pair_digit f2 f3.
Proof.
  intros H. rewrite (apply_program_four _ _ _ _ _ H).
  exists (encode f0 f1 f2 f3). split; [reflexivity |].
  unfold encode. destruct f0, f1, f2, f3; cbn; repeat split; lia.
Qed.

Lemma apply_program_digits_witness :
  exists n,
    sent (effects_of (apply_program tapped_twice)) = [program_change 3 n] /\
    10 <= n <= 43 /\
    n / 10 - 1 = pair_digit true false /\
    n mod 10 = pair_digit false true.
Proof.
  apply (apply_program_digits tapped_twice true false false true).
  reflexivity.
Defined.

(** X2: two rows of four flags for which [apply_program] sends the same
    message are the same row: the sixteen configurations have sixteen
    different program numbers. *)
Theorem apply_program_injective s s' f0 f1 f2 f3 g0 g1 g2 g3 :
  py_getitem (programs s) (active_program s) = Some [f0; f1; f2; f3] ->
  py_getitem (programs s') (active_program s') = Some [g0; g1; g2; g3] ->
  sent (effects_of (apply_program s)) = sent (effects_of (apply_program s')) ->
  [f0; f1; f2; f3] = [g0; g1; g2; g3].
Proof.
  intros H H'.
  rewrite (apply_program_four _ _ _ _ _ H), (apply_program_four _ _ _ _ _ H').
  cbn. intros [= _ He]. unfold encode in He.
  pose proof (pair_digit_range f0 f1). pose proof (pair_digit_range f2 f3).
  pose proof (pair_digit_range g0 g1). pose proof (pair_digit_range g2 g3).
  assert (pair_digit f0 f1 = pair_digit g0 g1) as Hl by lia.
  assert (pair_digit f2 f3 = pair_digit g2 g3) as Hr by lia.
  apply pair_digit_injective in Hl as [-> ->].
  apply pair_digit_injective in Hr as [-> ->]. reflexivity.
Qed.

Lemma apply_program_injective_witness :
  [false; false; false; false] = [false; false; false; false].
Proof.
  apply (apply_program_injective playing editing
           false false false false false false false false);
    reflexivity.
Defined.

(** ** The filters *)

Lemma handle_filtered now1 now2 now3 msg ch s :
  timedelta_ms 100 <= now1 - last_ts s ->
  channel_of msg = Some ch ->
  ch <> in_channel (conf s) \/
  (exists newest, py_getitem (ts_history s) (-1) = Some newest /\
                  now2 - newest <= timedelta_ms 100) ->
  handle now1 now2 now3 msg s = Ok tt (set_last_ts now1 s) [].
Proof.
  intros Hd Hc Hf. apply Z.ltb_ge in Hd.
  unfold handle. mstep. rewrite Hd.
  rewrite (bind_or_raise_some _ _ _ _ _ Hc). mstep.
  destruct (ch =? in_channel (conf s)) eqn:Hi; [| reflexivity].
  apply Z.eqb_eq in Hi. destruct Hf as [Hne | (newest & Hn & Hnear)];
    [contradiction |].
  mstep. rewrite (bind_or_raise_some _ _ _ _ _ Hn). mstep.
  assert ((now2 - newest >? timedelta_ms 100) = false) as ->
    by (rewrite Z.gtb_ltb; apply Z.ltb_ge; lia).
  reflexivity.
Qed.

(** X3: an event that is not debounced but arrives on another channel than
    the input channel, or no more than 100ms after the newest entry of the
    event history, does nothing but move the debounce clock. *)
Theorem filtered_event_only_moves_clock now1 now2 now3 msg ch s :
  timedelta_ms 100 <= now1 - last_ts s ->
  channel_of msg = Some ch ->
  ch <> in_channel (conf s) \/
  (exists newest, py_getitem (ts_history s) (-1) = Some newest /\
                  now2 - newest <= timedelta_ms 100) ->
  handle now1 now2 now3 msg s = Ok tt (set_last_ts now1 s) [].
Proof. exact (handle_filtered now1 now2 now3 msg ch s). Qed.

Lemma filtered_event_only_moves_clock_witness :
  handle 900000 900000 900000 (program_change 0 0) editing
  = Ok tt (set_last_ts 900000 editing) [].
Proof.
  apply (filtered_event_only_moves_clock 900000 900000 900000
           (program_change 0 0) 0 editing).
  - vm_compute. discriminate.
  - reflexivity.
  - right. exists 800000. split; [reflexivity |]. vm_compute. discriminate.
Defined.

(** X4: an admitted message that no branch matches, a control change on a
    control outside 80..83 or a channel message of another type, does nothing
    but move the debounce clock, in either mode. *)
Theorem unmatched_message_is_ignored now1 now2 now3 msg s :
  admitted now1 now2 msg s ->
  (exists ch, msg = other_voice ch) \/
  (exists ch c v, msg = control_change ch c v /\ ~ 80 <= c <= 83) ->
  handle now1 now2 now3 msg s = Ok tt (set_last_ts now1 s) [].
Proof.
  intros Hadm Hmsg. rewrite (handle_admitted _ _ _ _ _ Hadm).
  destruct Hmsg as [[ch ->] | (ch & c & v & -> & Hc)].
  - unfold dispatch. cbn [record_program_change]. mstep.
    now destruct (edit_mode s).
  - rewrite dispatch_control_change. fields.
    assert ((80 <=? c) && (c <=? 83) = false) as Hrange.
    { apply andb_false_iff.
      destruct (Z_le_dec 80 c); [right | left]; apply Z.leb_gt; lia. }
    destruct (edit_mode s); cbn [handle_edit handle_normal];
      now rewrite Hrange.
Qed.

Lemma unmatched_message_is_ignored_witness :
  handle 1000000 1000001 1000002 (control_change 0 84 127) editing
  = Ok tt (set_last_ts 1000000 editing) [].
Proof.
  apply (unmatched_message_is_ignored 1000000 1000001 1000002
           (control_change 0 84 127) editing).
  - split; [vm_compute; discriminate |]. split; [reflexivity |].
    exists 800000. split; reflexivity.
  - right. exists 0, 84, 127. split; [reflexivity | lia].
Defined.

(** X5: the debounce clock is moved by events on foreign channels too, so
    that whatever arrives less than 100ms after such an event is dropped,
    even when it is the first event on the input channel for a long time:
    after the two, only the clock has changed. *)
Theorem foreign_channel_masks_next e1 e2 ch s :
  channel_of (payload e1) = Some ch ->
  ch <> in_channel (conf s) ->
  arrival e2 - arrival e1 < timedelta_ms 100 ->
  run [e1; e2] s = Ok tt (set_last_ts (arrival e2) s) [].
Proof.
  intros Hc Hne Hnear.
  assert (handle_event e1 s = Ok tt (set_last_ts (arrival e1) s) []) as H1.
  { unfold handle_event.
    destruct (Z_lt_dec (arrival e1 - last_ts s) (timedelta_ms 100)) as [Hd | Hd].
    - now apply handle_debounced.
    - apply (handle_filtered _ _ _ _ ch); [lia | exact Hc |].
      now left. }
  cbn [run]. unfold bind at 1. rewrite H1.
  unfold bind, handle_event.
  rewrite handle_debounced by exact Hnear. reflexivity.
Qed.

Lemma foreign_channel_masks_next_witness :
  run [ {| arrival := 5000000; filter_time := 5000001; push_time := 5000002;
           payload := other_voice 9 |};
        {| arrival := 5090000; filter_time := 5090001; push_time := 5090002;
           payload := program_change 0 1 |} ] playing
  = Ok tt (set_last_ts 5090000 playing) [].
Proof.
  apply (foreign_channel_masks_next
           {| arrival := 5000000; filter_time := 5000001;
              push_time := 5000002; payload := other_voice 9 |}
           {| arrival := 5090000; filter_time := 5090001;
              push_time := 5090002; payload := program_change 0 1 |}
           9 playing).
  - reflexivity.
  - discriminate.
  - reflexivity.
Defined.

(** ** Program mode: the plain switch *)

Lemma tripletap_bool_false (window t1 now3 p1 p2 p : Z) :
  ~ (now3 - t1 <= window /\ p1 = p /\ p2 = p) ->
  (now3 - t1 <=? window) && (p1 =? p2) && (p2 =? p) = false.
Proof.
  intros Hno.
  destruct ((now3 - t1 <=? window) && (p1 =? p2) && (p2 =? p)) eqn:Hb;
    [| reflexivity].
  apply andb_prop in Hb as [Hb H3]. apply andb_prop in Hb as [H1 H2].
  apply Z.leb_le in H1. apply Z.eqb_eq in H2, H3. exfalso. apply Hno.
  repeat split; congruence.
Qed.

Lemma handle_program_mode_change now1 now2 now3 ch p s t0 t1 t2 p0 p1 p2 :
  edit_mode s = false ->
  ts_history s = [t0; t1; t2] ->
  program_history s = [p0; p1; p2] ->
  admitted now1 now2 (program_change ch p) s ->
  handle now1 now2 now3 (program_change ch p) s
  = handle_normal (program_change ch p)
      (set_program_history [p1; p2; p]
         (set_ts_history [t1; t2; now3] (set_last_ts now1 s))).
Proof.
  intros Hmode Ht Hp Hadm. rewrite (handle_admitted _ _ _ _ _ Hadm).
  rewrite (dispatch_program_change _ _ _ _ t0 t1 t2 p0 p1 p2) by assumption.
  cbv zeta. fields. now rewrite Hmode.
Qed.

(** X6: in program mode an admitted program change for another program
    than the active one, that does not complete a triple tap, selects that
    program: [active_program] becomes [p], [active_state] becomes a copy of
    the table's row for [p], one program change with the row's encoding is
    sent, and nothing is written. *)
Theorem program_switch now1 now2 now3 ch p s t0 t1 t2 p0 p1 p2 f0 f1 f2 f3 :
  edit_mode s = false ->
  ts_history s = [t0; t1; t2] ->
  program_history s = [p0; p1; p2] ->
  admitted now1 now2 (program_change ch p) s ->
  p <> active_program s ->
  ~ (now3 - t1 <= tripletap_time (conf s) /\ p1 = p /\ p2 = p) ->
  py_getitem (programs s) p = Some [f0; f1; f2; f3] ->
  handle now1 now2 now3 (program_change ch p) s
  = Ok tt
      (set_active_state [f0; f1; f2; f3]
         (set_active_program p
            (set_program_history [p1; p2; p]
               (set_ts_history [t1; t2; now3] (set_last_ts now1 s)))))
      [Send (program_change (out_channel (conf s)) (encode f0 f1 f2 f3))].
Proof.
  intros Hmode Ht Hp Hadm Hne Hno Hrow.
  rewrite (handle_program_mode_change _ _ _ _ _ _ t0 t1 t2 p0 p1 p2)
    by assumption.
  rewrite (handle_normal_program_change _ _ _ t1 t2 now3 p1 p2 p)
    by reflexivity.
  fields. rewrite (tripletap_bool_false _ _ _ _ _ _ Hno).
  assert ((active_program s =? p) = false) as -> by (apply Z.eqb_neq; congruence).
  cbn [negb]. rewrite Hrow.
  match goal with
  | |- apply_program ?st = _ => exact (apply_program_four st f0 f1 f2 f3 Hrow)
  end.
Qed.

Lemma program_switch_witness :
  handle 200000 200001 200002 (program_change 0 1) playing
  = Ok tt
      (set_active_state [false; false; false; false]
         (set_active_program 1
            (set_program_history [-1; -1; 1]
               (set_ts_history [0; 0; 200002] (set_last_ts 200000 playing)))))
      [Send (program_change 3 (encode false false false false))].
Proof.
  apply (program_switch 200000 200001 200002 0 1 playing 0 0 0 (-1) (-1) (-1)
           false false false false).
  - reflexivity.
  - reflexivity.
  - reflexivity.
  - split; [vm_compute; discriminate |]. split; [reflexivity |].
    exists 0. split; reflexivity.
  - discriminate.
  - intros (_ & H & _). discriminate H.
  - reflexivity.
Defined.

(** X7: the same program change for a program the table has no row for
    raises IndexError: nothing is sent, and the object is left with the
    missing program as its [active_program] and the event in its history. *)
Theorem program_switch_out_of_range now1 now2 now3 ch p s t0 t1 t2 p0 p1 p2 :
  edit_mode s = false ->
  ts_history s = [t0; t1; t2] ->
  program_history s = [p0; p1; p2] ->
  admitted now1 now2 (program_change ch p) s ->
  p <> active_program s ->
  ~ (now3 - t1 <= tripletap_time (conf s) /\ p1 = p /\ p2 = p) ->
  py_getitem (programs s) p = None ->
  handle now1 now2 now3 (program_change ch p) s
  = Raise IndexError
      (set_active_program p
         (set_program_history [p1; p2; p]
            (set_ts_history [t1; t2; now3] (set_last_ts now1 s))))
      [].
Proof.
  intros Hmode Ht Hp Hadm Hne Hno Hrow.
  rewrite (handle_program_mode_change _ _ _ _ _ _ t0 t1 t2 p0 p1 p2)
    by assumption.
  rewrite (handle_normal_program_change _ _ _ t1 t2 now3 p1 p2 p)
    by reflexivity.
  fields. rewrite (tripletap_bool_false _ _ _ _ _ _ Hno).
  assert ((active_program s =? p) = false) as -> by (apply Z.eqb_neq; congruence).
  cbn [negb]. now rewrite Hrow.
Qed.

Lemma program_switch_out_of_range_witness :
  handle 200000 200001 200002 (program_change 0 36) fresh
  = Raise IndexError
      (set_active_program 36
         (set_program_history [-1; -1; 36]
            (set_ts_history [0; 0; 200002] (set_last_ts 200000 fresh))))
      [].
Proof.
  apply (program_switch_out_of_range 200000 200001 200002 0 36 fresh
           0 0 0 (-1) (-1) (-1)).
  - reflexivity.
  - reflexivity.
  - reflexivity.
  - split; [vm_compute; discriminate |]. split; [reflexivity |].
    exists 0. split; reflexivity.
  - discriminate.
  - intros (_ & H & _). discriminate H.
  - reflexivity.
Defined.

(** ** Edit mode: the mutation *)

Lemma handle_edit_flip ch c v s row b row' table' g0 g1 g2 g3 :
  80 <= c <= 83 ->
  py_getitem (programs s) (active_program s) = Some row ->
  py_getitem row (3 - (c - 80)) = Some b ->
  py_setitem row (3 - (c - 80)) (negb b) = Some row' ->
  row' = [g0; g1; g2; g3] ->
  py_setitem (programs s) (active_program s) row' = Some table' ->
  handle_edit (control_change ch c v) s
  = Ok tt (set_active_state row' (set_programs table' s))
      [Send (program_change (out_channel (conf s)) (encode g0 g1 g2 g3));
       Save table'].
Proof.
  intros Hc Hrow Hb Hrow' Hg Hset. unfold handle_edit.
  replace ((80 <=? c) && (c <=? 83)) with true
    by (symmetry; apply andb_true_intro; split; apply Z.leb_le; lia).
  cbv zeta. replace (3 - c + 80) with (3 - (c - 80)) by lia. mstep.
  rewrite (bind_or_raise_some _ _ _ _ _ Hrow). mstep.
  rewrite (bind_or_raise_some _ _ _ _ _ Hb). mstep.
  rewrite (bind_or_raise_some _ _ _ _ _ Hrow'). mstep.
  rewrite (bind_or_raise_some _ _ _ _ _ Hset). mstep.
  unfold bind at 1.
  rewrite (apply_program_four _ g0 g1 g2 g3)
    by (fields; rewrite <- Hg; now apply (py_getitem_setitem_eq (programs s))).
  fields. unfold save_programs. mstep. now rewrite Hg.
Qed.

Lemma flip_loop_four loop f0 f1 f2 f3 :
  0 <= loop <= 3 ->
  exists b g0 g1 g2 g3,
    py_getitem [f0; f1; f2; f3] loop = Some b /\
    py_setitem [f0; f1; f2; f3] loop (negb b) = Some [g0; g1; g2; g3] /\
    flip_loop loop [f0; f1; f2; f3] = Some [g0; g1; g2; g3].
Proof.
  intros H.
  assert (loop = 0 \/ loop = 1 \/ loop = 2 \/ loop = 3)
    as [-> | [-> | [-> | ->]]] by lia.
  - exists f0, (negb f0), f1, f2, f3. now repeat split.
  - exists f1, f0, (negb f1), f2, f3. now repeat split.
  - exists f2, f0, f1, (negb f2), f3. now repeat split.
  - exists f3, f0, f1, f2, (negb f3). now repeat split.
Qed.

Lemma handle_edit_toggle now1 now2 now3 ch c v s f0 f1 f2 f3 :
  edit_mode s = true ->
  80 <= c <= 83 ->
  admitted now1 now2 (control_change ch c v) s ->
  py_getitem (programs s) (active_program s) = Some [f0; f1; f2; f3] ->
  exists g0 g1 g2 g3 table',
    flip_loop (3 - (c - 80)) [f0; f1; f2; f3] = Some [g0; g1; g2; g3] /\
    py_setitem (programs s) (active_program s) [g0; g1; g2; g3] = Some table' /\
    handle now1 now2 now3 (control_change ch c v) s
    = Ok tt
        (set_active_state [g0; g1; g2; g3]
           (set_programs table' (set_last_ts now1 s)))
        [Send (program_change (out_channel (conf s)) (encode g0 g1 g2 g3));
         Save table'].
Proof.
  intros Hmode Hc Hadm Hrow.
  destruct (flip_loop_four (3 - (c - 80)) f0 f1 f2 f3)
    as (b & g0 & g1 & g2 & g3 & Hb & Hset & Hflip); [lia |].
  destruct (py_setitem_defined _ _ _ [g0; g1; g2; g3] Hrow) as [table' Htab].
  exists g0, g1, g2, g3, table'. split; [exact Hflip |]. split; [exact Htab |].
  rewrite (handle_admitted _ _ _ _ _ Hadm), dispatch_control_change.
  fields. rewrite Hmode.
  exact (handle_edit_flip ch c v (set_last_ts now1 s) [f0; f1; f2; f3] b
           [g0; g1; g2; g3] table' g0 g1 g2 g3 Hc Hrow Hb Hset eq_refl Htab).
Qed.

(** X8: in edit mode an admitted control change on any of the controls
    80..83 inverts the flag of loop [3 - (c - 80)] in the row of the program
    being edited, whatever the row held, copies the new row to
    [active_state], sends one program change with the new row's encoding and
    then writes the whole table. *)
Theorem edit_toggle now1 now2 now3 ch c v s f0 f1 f2 f3 :
  edit_mode s = true ->
  80 <= c <= 83 ->
  admitted now1 now2 (control_change ch c v) s ->
  py_getitem (programs s) (active_program s) = Some [f0; f1; f2; f3] ->
  exists g0 g1 g2 g3 table',
    flip_loop (3 - (c - 80)) [f0; f1; f2; f3] = Some [g0; g1; g2; g3] /\
    py_setitem (programs s) (active_program s) [g0; g1; g2; g3] = Some table' /\
    handle now1 now2 now3 (control_change ch c v) s
    = Ok tt
        (set_active_state [g0; g1; g2; g3]
           (set_programs table' (set_last_ts now1 s)))
        [Send (program_change (out_channel (conf s)) (encode g0 g1 g2 g3));
         Save table'].
Proof. exact (handle_edit_toggle now1 now2 now3 ch c v s f0 f1 f2 f3). Qed.

Lemma edit_toggle_witness :
  exists g0 g1 g2 g3 table',
    flip_loop (3 - (80 - 80)) [false; false; false; false]
      = Some [g0; g1; g2; g3] /\
    py_setitem (programs editing) (active_program editing) [g0; g1; g2; g3]
      = Some table' /\
    handle 1000000 1000001 1000002 (control_change 0 80 0) editing
    = Ok tt
        (set_active_state [g0; g1; g2; g3]
           (set_programs table' (set_last_ts 1000000 editing)))
        [Send (program_change (out_channel (conf editing))
                 (encode g0 g1 g2 g3));
         Save table'].
Proof.
  apply (edit_toggle 1000000 1000001 1000002 0 80 0 editing
           false false false false).
  - reflexivity.
  - lia.
  - split; [vm_compute; discriminate |]. split; [reflexivity |].
    exists 800000. split; reflexivity.
  - reflexivity.
Defined.

(** ** Toggling twice *)

Lemma replace_nth_twice {A : Type} (l : list A) k v v' :
  replace_nth k v (replace_nth k v' l) = replace_nth k v l.
Proof.
  revert k. induction l as [| x t IH]; intros [| k]; cbn; try reflexivity.
  now rewrite IH.
Qed.

Lemma replace_nth_same {A : Type} (l : list A) k v :
  nth_error l k = Some v -> replace_nth k v l = l.
Proof.
  revert k. induction l as [| x t IH]; intros [| k]; cbn; try discriminate.
  - now intros [= ->].
  - intros H. now rewrite IH.
Qed.

Lemma py_setitem_twice {A : Type} (l l' : list A) i v v' :
  py_setitem l i v' = Some l' -> py_setitem l' i v = py_setitem l i v.
Proof.
  unfold py_setitem.
  destruct (py_pos (length l) i) as [k |] eqn:E; [| discriminate].
  intros [= <-]. rewrite length_replace_nth, E. now rewrite replace_nth_twice.
Qed.

Lemma py_setitem_same {A : Type} (l : list A) i v :
  py_getitem l i = Some v -> py_setitem l i v = Some l.
Proof.
  unfold py_getitem, py_setitem.
  destruct (py_pos (length l) i) as [k |]; [| discriminate].
  intros H. now rewrite replace_nth_same.
Qed.

Lemma flip_loop_involutive loop row row' :
  flip_loop loop row = Some row' -> flip_loop loop row' = Some row.
Proof.
  unfold flip_loop. destruct (py_getitem row loop) as [b |] eqn:Hb;
    [| discriminate].
  intros Hset. rewrite (py_getitem_setitem_eq _ _ _ _ Hset).
  rewrite (py_setitem_twice _ _ _ _ _ Hset), negb_involutive.
  now apply py_setitem_same.
Qed.

Lemma admitted_same_clock now1 now2 msg s s' :
  last_ts s' = last_ts s ->
  conf s' = conf s ->
  ts_history s' = ts_history s ->
  admitted now1 now2 msg s -> admitted now1 now2 msg s'.
Proof.
  intros Hl Hc Ht. unfold admitted. now rewrite Hl, Hc, Ht.
Qed.

(** X9: in edit mode, two admitted presses on the same loop control undo
    each other in the table: after the two, the table is what it was before
    the first, [active_state] is a copy of the original row of the program
    being edited (whatever [active_state] held before the first press), and
    nothing else but the debounce clock has changed; the table was written
    twice, the second time in its original state, and the two program changes
    sent carry the encoding of the row with the flag inverted and then that of
    the original row.  The clock readings of the two calls are arbitrary. *)
Theorem edit_toggle_twice a1 b1 c1 a2 b2 c2 ch1 ch2 c v1 v2 s f0 f1 f2 f3 :
  edit_mode s = true ->
  80 <= c <= 83 ->
  py_getitem (programs s) (active_program s) = Some [f0; f1; f2; f3] ->
  admitted a1 b1 (control_change ch1 c v1) s ->
  admitted a2 b2 (control_change ch2 c v2) (set_last_ts a1 s) ->
  exists g0 g1 g2 g3 table',
    flip_loop (3 - (c - 80)) [f0; f1; f2; f3] = Some [g0; g1; g2; g3] /\
    py_setitem (programs s) (active_program s) [g0; g1; g2; g3] = Some table' /\
    run [event_of a1 b1 c1 (control_change ch1 c v1);
         event_of a2 b2 c2 (control_change ch2 c v2)] s
    = Ok tt (set_active_state [f0; f1; f2; f3] (set_last_ts a2 s))
        [Send (program_change (out_channel (conf s)) (encode g0 g1 g2 g3));
         Save table';
         Send (program_change (out_channel (conf s)) (encode f0 f1 f2 f3));
         Save (programs s)].
Proof.
  intros Hmode Hc Hrow Hadm1 Hadm2.
  destruct (handle_edit_toggle a1 b1 c1 ch1 c v1 s f0 f1 f2 f3
              Hmode Hc Hadm1 Hrow)
    as (g0 & g1 & g2 & g3 & table' & Hflip & Htab & Hrun1).
  set (s1 := set_active_state [g0; g1; g2; g3]
               (set_programs table' (set_last_ts a1 s))) in *.
  assert (py_getitem (programs s1) (active_program s1) = Some [g0; g1; g2; g3])
    as Hrow1 by exact (py_getitem_setitem_eq _ _ _ _ Htab).
  assert (admitted a2 b2 (control_change ch2 c v2) s1) as Hadm2'
    by (revert Hadm2; now apply admitted_same_clock).
  destruct (handle_edit_toggle a2 b2 c2 ch2 c v2 s1 g0 g1 g2 g3
              Hmode Hc Hadm2' Hrow1)
    as (h0 & h1 & h2 & h3 & table'' & Hflip2 & Htab2 & Hrun2).
  rewrite (flip_loop_involutive _ _ _ Hflip) in Hflip2.
  injection Hflip2 as <- <- <- <-.
  assert (table'' = programs s) as ->.
  { unfold s1 in Htab2. fields_in Htab2.
    rewrite (py_setitem_twice _ _ _ _ _ Htab) in Htab2.
    rewrite (py_setitem_same _ _ _ Hrow) in Htab2. now injection Htab2. }
  exists g0, g1, g2, g3, table'.
  split; [exact Hflip |]. split; [exact Htab |].
  cbn [run]. unfold bind at 1. unfold handle_event at 1.
  cbn [arrival filter_time push_time payload event_of]. rewrite Hrun1.
  unfold bind at 1. unfold handle_event.
  cbn [arrival filter_time push_time payload event_of]. rewrite Hrun2.
  unfold ret. cbn [app]. reflexivity.
Qed.

Lemma edit_toggle_twice_witness :
  exists g0 g1 g2 g3 table',
    flip_loop (3 - (81 - 80)) [true; false; false; true]
      = Some [g0; g1; g2; g3] /\
    py_setitem (programs diverged) (active_program diverged) [g0; g1; g2; g3]
      = Some table' /\
    run [event_of 1000000 1000037 1000058 (control_change 0 81 127);
         event_of 1200000 1200002 1200009 (control_change 0 81 0)] diverged
    = Ok tt (set_active_state [true; false; false; true]
               (set_last_ts 1200000 diverged))
        [Send (program_change (out_channel (conf diverged))
                 (encode g0 g1 g2 g3));
         Save table';
         Send (program_change (out_channel (conf diverged))
                 (encode true false false true));
         Save (programs diverged)].
Proof.
  apply (edit_toggle_twice 1000000 1000037 1000058 1200000 1200002 1200009
           0 0 81 127 0 diverged true false false true).
  - reflexivity.
  - lia.
  - reflexivity.
  - split; [vm_compute; discriminate |]. split; [reflexivity |].
    exists 900002. split; [reflexivity |]. vm_compute. reflexivity.
  - split; [vm_compute; discriminate |]. split; [reflexivity |].
    exists 900002. split; [reflexivity |]. vm_compute. reflexivity.
Defined.

Lemma handle_normal_toggle ch c v s b state' :
  80 <= c <= 83 ->
  py_getitem (active_state s) (3 - (c - 80)) = Some b ->
  py_setitem (active_state s) (3 - (c - 80)) (negb b) = Some state' ->
  handle_normal (control_change ch c v) s
  = Ok tt (set_active_state state' s)
      [Send (control_change (out_channel (conf s)) (80 + (3 - (c - 80)))
               (127 * Z.b2z (negb b)))].
Proof.
  intros Hc Hb Hset. unfold handle_normal.
  replace ((80 <=? c) && (c <=? 83)) with true
    by (symmetry; apply andb_true_intro; split; apply Z.leb_le; lia).
  cbv zeta. replace (3 - c + 80) with (3 - (c - 80)) by lia. mstep.
  rewrite (bind_or_raise_some _ _ _ _ _ Hb). mstep.
  rewrite (bind_or_raise_some _ _ _ _ _ Hset). mstep.
  rewrite (bind_or_raise_some _ _ _ _ _ (py_getitem_setitem_eq _ _ _ _ Hset)).
  now mstep.
Qed.

(** X10: in program mode, two admitted presses on the same loop control
    undo each other in [active_state]; two control changes go out for the
    loop, first with the inverted value and then with the original one, and
    after the two nothing but the debounce clock has changed: neither the
    table nor the state file is touched.  The clock readings of the two calls
    are arbitrary. *)
Theorem manual_toggle_twice a1 b1 c1 a2 b2 c2 ch1 ch2 c v1 v2 s b :
  edit_mode s = false ->
  80 <= c <= 83 ->
  py_getitem (active_state s) (3 - (c - 80)) = Some b ->
  admitted a1 b1 (control_change ch1 c v1) s ->
  admitted a2 b2 (control_change ch2 c v2) (set_last_ts a1 s) ->
  run [event_of a1 b1 c1 (control_change ch1 c v1);
       event_of a2 b2 c2 (control_change ch2 c v2)] s
  = Ok tt (set_last_ts a2 s)
      [Send (control_change (out_channel (conf s)) (80 + (3 - (c - 80)))
               (if b then 0 else 127));
       Send (control_change (out_channel (conf s)) (80 + (3 - (c - 80)))
               (if b then 127 else 0))].
Proof.
  intros Hmode Hc Hb Hadm1 Hadm2.
  destruct (py_setitem_defined _ _ _ (negb b) Hb) as [state' Hset].
  set (s1 := set_active_state state' (set_last_ts a1 s)).
  assert (handle_event (event_of a1 b1 c1 (control_change ch1 c v1)) s
          = Ok tt s1
              [Send (control_change (out_channel (conf s)) (80 + (3 - (c - 80)))
                       (127 * Z.b2z (negb b)))]) as H1.
  { unfold handle_event. cbn [arrival filter_time push_time payload event_of].
    rewrite (handle_admitted _ _ _ _ _ Hadm1), dispatch_control_change.
    fields. rewrite Hmode.
    exact (handle_normal_toggle ch1 c v1 (set_last_ts a1 s) b state' Hc Hb Hset). }
  assert (admitted a2 b2 (control_change ch2 c v2) s1) as Hadm2'
    by (revert Hadm2; now apply admitted_same_clock).
  assert (py_getitem (active_state s1) (3 - (c - 80)) = Some (negb b)) as Hb1
    by exact (py_getitem_setitem_eq _ _ _ _ Hset).
  assert (py_setitem (active_state s1) (3 - (c - 80)) (negb (negb b))
          = Some (active_state s)) as Hset1.
  { unfold s1. fields. rewrite (py_setitem_twice _ _ _ _ _ Hset).
    rewrite negb_involutive. now apply py_setitem_same. }
  assert (handle_event (event_of a2 b2 c2 (control_change ch2 c v2)) s1
          = Ok tt (set_last_ts a2 s)
              [Send (control_change (out_channel (conf s)) (80 + (3 - (c - 80)))
                       (127 * Z.b2z (negb (negb b))))]) as H2.
  { unfold handle_event. cbn [arrival filter_time push_time payload event_of].
    rewrite (handle_admitted _ _ _ _ _ Hadm2'), dispatch_control_change.
    replace (edit_mode (set_last_ts a2 s1)) with false
      by (symmetry; exact Hmode).
    rewrite (handle_normal_toggle ch2 c v2 (set_last_ts a2 s1) (negb b)
               (active_state s) Hc Hb1 Hset1).
    unfold s1. destruct s; reflexivity. }
  cbn [run]. unfold bind at 1. rewrite H1. unfold bind at 1. rewrite H2.
  unfold ret. cbn [app]. now destruct b.
Qed.

Lemma manual_toggle_twice_witness :
  run [event_of 700000 700037 700058 (control_change 0 83 127);
       event_of 900000 900002 900009 (control_change 0 83 0)] tapped_twice
  = Ok tt (set_last_ts 900000 tapped_twice)
      [Send (control_change (out_channel (conf tapped_twice))
               (80 + (3 - (83 - 80))) (if true then 0 else 127));
       Send (control_change (out_channel (conf tapped_twice))
               (80 + (3 - (83 - 80))) (if true then 127 else 0))].
Proof.
  apply (manual_toggle_twice 700000 700037 700058 900000 900002 900009
           0 0 83 127 0 tapped_twice true).
  - reflexivity.
  - lia.
  - reflexivity.
  - split; [vm_compute; discriminate |]. split; [reflexivity |].
    exists 500000. split; [reflexivity |]. vm_compute. reflexivity.
  - split; [vm_compute; discriminate |]. split; [reflexivity |].
    exists 500000. split; [reflexivity |]. vm_compute. reflexivity.
Defined.

(** ** What is written, and when *)

Lemma saved_app tr1 tr2 : saved (tr1 ++ tr2) = saved tr1 ++ saved tr2.
Proof. unfold saved. now rewrite flat_map_app. Qed.

Lemma store_after_app store tr1 tr2 :
  store_after store (tr1 ++ tr2) = store_after (store_after store tr1) tr2.
Proof.
  revert store. induction tr1 as [| [m | t] tr1 IH]; intros store; cbn; auto.
Qed.

Lemma store_after_no_save store tr : saved tr = [] -> store_after store tr = store.
Proof.
  revert store. induction tr as [| [m | t] tr IH]; intros store; cbn; auto.
  discriminate.
Qed.

Section Silence.
Context {A B : Type}.

Lemma writes_nothing_ret (a : A) : writes_nothing (ret a).
Proof. intros s. reflexivity. Qed.

Lemma writes_nothing_gets (g : mapper -> A) : writes_nothing (gets g).
Proof. intros s. reflexivity. Qed.

Lemma writes_nothing_raise (e : exn) : writes_nothing (@raise A e).
Proof. intros s. reflexivity. Qed.

Lemma writes_nothing_or_raise (e : exn) (o : option A) :
  writes_nothing (or_raise e o).
Proof. destruct o; intros s; reflexivity. Qed.

Lemma writes_nothing_bind (m : M A) (k : A -> M B) :
  writes_nothing m -> (forall a, writes_nothing (k a)) ->
  writes_nothing (bind m k).
Proof.
  intros Hm Hk s. unfold bind. specialize (Hm s).
  destruct (m s) as [a s1 tr1 | e s1 tr1]; cbn [effects_of] in Hm |- *;
    [| exact Hm].
  specialize (Hk a s1).
  destruct (k a s1); cbn [effects_of] in Hk |- *; now rewrite saved_app, Hm, Hk.
Qed.
End Silence.

Lemma writes_nothing_modify (g : mapper -> mapper) : writes_nothing (modify g).
Proof. intros s. reflexivity. Qed.

Lemma writes_nothing_send (msg : message) : writes_nothing (emit (Send msg)).
Proof. intros s. reflexivity. Qed.

Ltac silence :=
  repeat first
    [ apply writes_nothing_ret | apply writes_nothing_gets
    | apply writes_nothing_raise | apply writes_nothing_or_raise
    | apply writes_nothing_modify | apply writes_nothing_send
    | apply writes_nothing_bind; [| intros ?]
    | progress cbv zeta
    | match goal with
      | |- writes_nothing (if ?b then _ else _) => destruct b
      end ].

Lemma apply_program_writes_nothing : writes_nothing apply_program.
Proof. unfold apply_program. silence. Qed.

Lemma apply_program_keeps_programs : preserves programs apply_program.
Proof. unfold apply_program. preserve. Qed.

Lemma record_program_change_writes_nothing now3 msg :
  writes_nothing (record_program_change now3 msg).
Proof. unfold record_program_change. destruct msg; silence. Qed.

Lemma handle_normal_writes_nothing msg : writes_nothing (handle_normal msg).
Proof.
  pose proof apply_program_writes_nothing as Happly.
  unfold handle_normal, tripletap_test. destruct msg; silence; exact Happly.
Qed.

Lemma handle_normal_keeps_programs msg : preserves programs (handle_normal msg).
Proof.
  pose proof apply_program_keeps_programs as Happly.
  unfold handle_normal, tripletap_test. destruct msg; preserve; exact Happly.
Qed.

Lemma record_program_change_keeps {X : Type} (f : mapper -> X) now3 msg :
  (forall v s, f (set_ts_history v s) = f s) ->
  (forall v s, f (set_program_history v s) = f s) ->
  preserves f (record_program_change now3 msg).
Proof.
  intros H1 H2. unfold record_program_change.
  destruct msg; preserve;
    try (apply preserves_modify; intros ?; first [apply H1 | apply H2]).
Qed.

(** In program mode, what is dispatched is the push and then the program
    mode branch. *)
Lemma dispatch_program_mode now3 msg s :
  edit_mode s = false ->
  dispatch now3 msg s
  = bind (record_program_change now3 msg) (fun _ => handle_normal msg) s.
Proof.
  intros Hmode. unfold dispatch, bind at 1 3.
  pose proof (record_program_change_keeps edit_mode now3 msg
                (fun _ _ => eq_refl) (fun _ _ => eq_refl) s) as Hkeep.
  destruct (record_program_change now3 msg s) as [a s1 tr1 | e s1 tr1];
    [| reflexivity].
  cbn [state_of] in Hkeep. rewrite bind_gets, Hkeep, Hmode. reflexivity.
Qed.

Lemma dispatch_edit_mode now3 msg s :
  edit_mode s = true ->
  dispatch now3 msg s
  = bind (record_program_change now3 msg) (fun _ => handle_edit msg) s.
Proof.
  intros Hmode. unfold dispatch, bind at 1 3.
  pose proof (record_program_change_keeps edit_mode now3 msg
                (fun _ _ => eq_refl) (fun _ _ => eq_refl) s) as Hkeep.
  destruct (record_program_change now3 msg s) as [a s1 tr1 | e s1 tr1];
    [| reflexivity].
  cbn [state_of] in Hkeep. rewrite bind_gets, Hkeep, Hmode. reflexivity.
Qed.

(** Every call is the clock update followed by nothing, by an
    AttributeError or IndexError before the dispatch, or by the dispatch. *)
Lemma handle_cases now1 now2 now3 msg s :
  handle now1 now2 now3 msg s = Ok tt (set_last_ts now1 s) [] \/
  (exists e, handle now1 now2 now3 msg s = Raise e (set_last_ts now1 s) []) \/
  (admitted now1 now2 msg s /\
   handle now1 now2 now3 msg s = dispatch now3 msg (set_last_ts now1 s)).
Proof.
  destruct (Z_lt_dec (now1 - last_ts s) (timedelta_ms 100)) as [Hd | Hd];
    [left; now apply handle_debounced |].
  assert ((now1 - last_ts s <? timedelta_ms 100) = false) as Hdb
    by (apply Z.ltb_ge; lia).
  destruct (channel_of msg) as [ch |] eqn:Hc.
  2:{ right. left. exists AttributeError. unfold handle. mstep. rewrite Hdb.
      now rewrite (bind_or_raise_none _ _ _ _ Hc). }
  destruct (Z.eq_dec ch (in_channel (conf s))) as [Hi | Hi].
  2:{ left. apply (handle_filtered _ _ _ _ ch); [lia | exact Hc | now left]. }
  destruct (py_getitem (ts_history s) (-1)) as [newest |] eqn:Hn.
  2:{ right. left. exists IndexError. unfold handle. mstep. rewrite Hdb.
      rewrite (bind_or_raise_some _ _ _ _ _ Hc). mstep.
      rewrite Hi, Z.eqb_refl. mstep.
      now rewrite (bind_or_raise_none _ _ _ _ Hn). }
  destruct (Z_lt_dec (timedelta_ms 100) (now2 - newest)) as [Hf | Hf].
  - right. right.
    assert (admitted now1 now2 msg s) as Hadm.
    { split; [lia |]. split; [now rewrite Hc, Hi |]. eauto. }
    split; [exact Hadm | now apply handle_admitted].
  - left. apply (handle_filtered _ _ _ _ ch); [lia | exact Hc |].
    right. exists newest. split; [exact Hn | lia].
Qed.

(** X11: in program mode no call of [handle] changes the table or writes
    the state file, whatever the message and whether the call returns or
    raises. *)
Theorem program_mode_never_writes now1 now2 now3 msg s :
  edit_mode s = false ->
  let r := handle now1 now2 now3 msg s in
  programs (state_of r) = programs s /\
  saved (effects_of r) = [] /\
  forall store, store_after store (effects_of r) = store.
Proof.
  intros Hmode r.
  assert (programs (state_of r) = programs s /\ saved (effects_of r) = [])
    as [Hp Hs].
  { subst r.
    destruct (handle_cases now1 now2 now3 msg s)
      as [-> | [[e ->] | [_ ->]]]; [now split | now split |].
    rewrite dispatch_program_mode by exact Hmode. split.
    - refine (preserves_bind programs _ _ _ _ (set_last_ts now1 s));
        [apply record_program_change_keeps; reflexivity
        | intros ?; apply handle_normal_keeps_programs].
    - refine (writes_nothing_bind _ _ _ _ (set_last_ts now1 s));
        [apply record_program_change_writes_nothing
        | intros ?; apply handle_normal_writes_nothing]. }
  repeat split; [exact Hp | exact Hs |].
  intros store. now apply store_after_no_save.
Qed.

Lemma program_mode_never_writes_witness :
  let r := handle 200000 200001 200002 (program_change 0 1) playing in
  programs (state_of r) = programs playing /\
  saved (effects_of r) = [] /\
  forall store, store_after store (effects_of r) = store.
Proof.
  apply (program_mode_never_writes 200000 200001 200002 (program_change 0 1)
           playing).
  reflexivity.
Defined.

(** ** The shape of the table *)

Lemma map_replace_nth {A B : Type} (f : A -> B) (l : list A) k v :
  map f (replace_nth k v l) = replace_nth k (f v) (map f l).
Proof.
  revert k. induction l as [| x t IH]; intros [| k]; cbn; try reflexivity.
  now rewrite IH.
Qed.

Lemma py_setitem_length {A : Type} (l l' : list A) i v :
  py_setitem l i v = Some l' -> length l' = length l.
Proof.
  unfold py_setitem. destruct (py_pos (length l) i); [| discriminate].
  intros [= <-]. apply length_replace_nth.
Qed.

Lemma py_setitem_shape (table table' : list (list bool)) p row row' :
  py_getitem table p = Some row ->
  length row' = length row ->
  py_setitem table p row' = Some table' ->
  map (@length bool) table' = map (@length bool) table.
Proof.
  unfold py_getitem, py_setitem.
  destruct (py_pos (length table) p) as [k |]; [| discriminate].
  intros Hrow Hlen [= <-]. rewrite map_replace_nth. apply replace_nth_same.
  rewrite Hlen. now apply map_nth_error.
Qed.

Lemma apply_program_keeps_shape : preserves shape apply_program.
Proof. unfold apply_program. preserve. Qed.

Lemma handle_edit_keeps_shape msg : preserves shape (handle_edit msg).
Proof.
  pose proof apply_program_keeps_shape as Happly.
  destruct msg as [ch p | ch c v | ch |]; unfold handle_edit;
    try (preserve; exact Happly).
  intros s. destruct ((80 <=? c) && (c <=? 83)); [| reflexivity].
  cbv zeta. mstep.
  destruct (py_getitem (programs s) (active_program s)) as [row |] eqn:Hrow;
    mstep; [| reflexivity].
  destruct (py_getitem row (3 - c + 80)) as [b |]; mstep; [| reflexivity].
  destruct (py_setitem row (3 - c + 80) (negb b)) as [row' |] eqn:Hrow';
    mstep; [| reflexivity].
  destruct (py_setitem (programs s) (active_program s) row') as [table' |]
    eqn:Htab; mstep; [| reflexivity].
  assert (shape (set_programs table' s) = shape s) as <-.
  { unfold shape. fields.
    exact (py_setitem_shape _ _ _ _ _ Hrow (py_setitem_length _ _ _ _ Hrow')
             Htab). }
  refine (preserves_bind shape _ _ Happly _ (set_programs table' s)).
  intros ?. unfold save_programs. preserve.
Qed.

Lemma handle_normal_keeps_shape msg : preserves shape (handle_normal msg).
Proof.
  pose proof apply_program_keeps_shape as Happly.
  unfold handle_normal, tripletap_test. destruct msg; preserve; exact Happly.
Qed.

Lemma dispatch_keeps_shape now3 msg : preserves shape (dispatch now3 msg).
Proof.
  unfold dispatch. apply preserves_bind;
    [apply record_program_change_keeps; reflexivity |].
  intros _. apply preserves_bind; [apply preserves_gets |].
  intros [|]; [apply handle_edit_keeps_shape | apply handle_normal_keeps_shape].
Qed.

(** X12: no call of [handle] changes the number of programs in the table
    or the number of flags of any program, whatever the message and whether
    the call returns or raises. *)
Theorem table_shape_is_constant now1 now2 now3 msg s :
  shape (state_of (handle now1 now2 now3 msg s)) = shape s /\
  length (programs (state_of (handle now1 now2 now3 msg s)))
  = length (programs s).
Proof.
  assert (shape (state_of (handle now1 now2 now3 msg s)) = shape s) as H.
  { destruct (handle_cases now1 now2 now3 msg s)
      as [-> | [[e ->] | [_ ->]]]; [reflexivity | reflexivity |].
    exact (dispatch_keeps_shape now3 msg (set_last_ts now1 s)). }
  split; [exact H |].
  apply (f_equal (@length nat)) in H. unfold shape in H.
  now rewrite !length_map in H.
Qed.

(** ** The state file mirrors the table *)

Section Sync.
Context {A B : Type}.

Lemma synced_ret (a : A) : synced (ret a).
Proof. intros s a' s' tr [= _ <- <-]. reflexivity. Qed.

Lemma synced_gets (g : mapper -> A) : synced (gets g).
Proof. intros s a' s' tr [= _ <- <-]. reflexivity. Qed.

Lemma synced_raise (e : exn) : synced (@raise A e).
Proof. intros s a' s' tr H. discriminate H. Qed.

Lemma synced_or_raise (e : exn) (o : option A) : synced (or_raise e o).
Proof. destruct o; [apply synced_ret | apply synced_raise]. Qed.

Lemma synced_bind (m : M A) (k : A -> M B) :
  synced m -> (forall a, synced (k a)) -> synced (bind m k).
Proof.
  intros Hm Hk s b s' tr. unfold bind.
  destruct (m s) as [a s1 tr1 | e s1 tr1] eqn:H1; [| discriminate].
  destruct (k a s1) as [b' s2 tr2 | e s2 tr2] eqn:H2; [| discriminate].
  intros [= _ <- <-]. rewrite store_after_app.
  rewrite (Hm _ _ _ _ H1). exact (Hk _ _ _ _ _ H2).
Qed.
End Sync.

Lemma synced_modify (g : mapper -> mapper) :
  (forall s, programs (g s) = programs s) -> synced (modify g).
Proof. intros H s [] s' tr [= <- <-]. cbn. now rewrite H. Qed.

Lemma synced_send (msg : message) : synced (emit (Send msg)).
Proof. intros s [] s' tr [= <- <-]. reflexivity. Qed.

Ltac sync :=
  repeat first
    [ apply synced_ret | apply synced_gets | apply synced_raise
    | apply synced_or_raise | apply synced_send
    | apply synced_modify; intros ?; reflexivity
    | apply synced_bind; [| intros ?]
    | progress cbv zeta
    | match goal with
      | |- synced (if ?b then _ else _) => destruct b
      end ].

Lemma apply_program_synced : synced apply_program.
Proof. unfold apply_program. sync. Qed.

Lemma handle_normal_synced msg : synced (handle_normal msg).
Proof.
  pose proof apply_program_synced as Happly.
  unfold handle_normal, tripletap_test. destruct msg; sync; exact Happly.
Qed.

Lemma handle_edit_synced msg : synced (handle_edit msg).
Proof.
  pose proof apply_program_synced as Happly.
  destruct msg as [ch p | ch c v | ch |]; unfold handle_edit;
    try (sync; exact Happly).
  intros s [] s' tr. destruct ((80 <=? c) && (c <=? 83));
    [| intros [= <- <-]; reflexivity].
  cbv zeta. mstep.
  destruct (py_getitem (programs s) (active_program s)) as [row |]; mstep;
    [| discriminate].
  destruct (py_getitem row (3 - c + 80)) as [b |]; mstep; [| discriminate].
  destruct (py_setitem row (3 - c + 80) (negb b)) as [row' |]; mstep;
    [| discriminate].
  destruct (py_setitem (programs s) (active_program s) row') as [table' |];
    mstep; [| discriminate].
  apply_cases e st row'' n Hrow; [discriminate |].
  unfold save_programs. mstep. unfold emit. intros [= <- <-]. reflexivity.
Qed.

Lemma dispatch_synced now3 msg : synced (dispatch now3 msg).
Proof.
  unfold dispatch. apply synced_bind.
  - unfold record_program_change. destruct msg; sync.
  - intros _. apply synced_bind; [apply synced_gets |].
    intros [|]; [apply handle_edit_synced | apply handle_normal_synced].
Qed.

Lemma handle_synced now1 now2 now3 msg : synced (handle now1 now2 now3 msg).
Proof.
  intros s [] s' tr.
  destruct (handle_cases now1 now2 now3 msg s) as [-> | [[e ->] | [_ ->]]].
  - intros [= <- <-]. reflexivity.
  - discriminate.
  - exact (dispatch_synced now3 msg (set_last_ts now1 s) tt s' tr).
Qed.

Lemma run_synced evs : synced (run evs).
Proof.
  induction evs as [| e rest IH]; cbn [run].
  - apply synced_ret.
  - apply synced_bind; [apply handle_synced | intros _; exact IH].
Qed.

Lemma init_synced c store now_a now_b s tr :
  init c store now_a now_b = Ok tt s tr ->
  store_after store tr = Some (programs s).
Proof.
  destruct store as [table |].
  - unfold init, init_body. mstep.
    apply_cases e st row n Hrow; [discriminate |].
    mstep. fields_in Hrow. rewrite (bind_or_raise_some _ _ _ _ _ Hrow). mstep.
    unfold modify. intros [= <- <-]. reflexivity.
  - destruct (init_without_store_cases c now_a now_b)
      as (s0 & tr0 & Hs & [-> | [e ->]] & Htr); [| discriminate].
    intros [= <- <-]. rewrite Hs.
    destruct Htr as [-> | [n ->]]; reflexivity.
Qed.

(** X13: as long as the main loop has raised nothing, the state file holds
    exactly the table the mapper has in memory: after the constructor, and
    after every message handled since. *)
Theorem state_file_mirrors_table c store now_a now_b evs s tr :
  session c store now_a now_b evs = Ok tt s tr ->
  store_after store tr = Some (programs s).
Proof.
  unfold session.
  destruct (init c store now_a now_b) as [[] s0 tr0 | e s0 tr0] eqn:Hinit;
    [| discriminate].
  destruct (run evs s0) as [[] s1 tr1 | e s1 tr1] eqn:Hrun; [| discriminate].
  intros [= <- <-]. rewrite store_after_app.
  rewrite (init_synced _ _ _ _ _ _ Hinit).
  exact (run_synced evs _ _ _ _ Hrun).
Qed.

(** ** The constructor *)

Lemma apply_program_ok_row s s' tr :
  apply_program s = Ok tt s' tr ->
  exists f0 f1 f2 f3,
    py_getitem (programs s) (active_program s) = Some [f0; f1; f2; f3] /\
    s' = set_active_state [f0; f1; f2; f3] s /\
    tr = [Send (program_change (out_channel (conf s)) (encode f0 f1 f2 f3))].
Proof.
  intros Hok.
  destruct (apply_program_ok_four _ _ _ Hok) as (f0 & f1 & f2 & f3 & Hst).
  destruct (apply_program_cases s) as [(e & st & He) | (row & n & Hrow & He)];
    rewrite He in Hok; [discriminate |].
  injection Hok as <- <-. fields_in Hst. subst row.
  exists f0, f1, f2, f3. split; [exact Hrow |].
  rewrite (apply_program_four _ _ _ _ _ Hrow) in He. now injection He as <-.
Qed.

Lemma init_ok c store now_a now_b f0 f1 f2 f3 :
  py_getitem (initial_table c store) 0 = Some [f0; f1; f2; f3] ->
  init c store now_a now_b
  = Ok tt
      {| conf := c; programs := initial_table c store; edit_mode := false;
         active_program := 0; active_state := [f0; f1; f2; f3];
         ts_history := [now_a; now_a; now_a];
         program_history := [-1; -1; -1]; last_ts := now_b |}
      (match store with
       | Some _ => []
       | None => [Save (default_programs c)]
       end
       ++ [Send (program_change (out_channel c) (encode f0 f1 f2 f3))]).
Proof.
  intros Hrow. unfold init, init_body.
  destruct store as [table |]; cbn [initial_table] in Hrow |- *;
    unfold save_programs; mstep; try rewrite bind_emit; mstep;
    cbn [blank conf]; unfold bind at 1;
    match goal with
    | |- context [apply_program ?st] =>
        rewrite (apply_program_four st f0 f1 f2 f3 Hrow)
    end;
    mstep; rewrite (bind_or_raise_some _ _ _ _ _ Hrow); mstep;
    reflexivity.
Qed.

Lemma init_ok_row c store now_a now_b s tr :
  init c store now_a now_b = Ok tt s tr ->
  exists f0 f1 f2 f3,
    py_getitem (initial_table c store) 0 = Some [f0; f1; f2; f3].
Proof.
  unfold init, init_body.
  destruct store as [table |]; cbn [initial_table];
    unfold save_programs; mstep; try rewrite bind_emit; mstep;
    cbn [blank conf]; unfold bind at 1;
    match goal with
    | |- context [apply_program ?st] =>
        destruct (apply_program st) as [[] s1 tr1 | e s1 tr1] eqn:Happly;
          [| discriminate]
    end;
    intros _; apply apply_program_ok_row in Happly
      as (f0 & f1 & f2 & f3 & Hrow & _); eauto.
Qed.







(** X16: constructed with an [out_channel] that mido accepts, from a state
    file whose program 0 has four flags, the
    mapper takes the table as it is, writes nothing, sends one program change
    with the encoding of program 0, and starts in program mode on program 0
    with a copy of its row as [active_state], a history of three equal
    timestamps with no program in it, and the debounce clock just set. *)
Theorem init_from_store c table now_a now_b f0 f1 f2 f3 :
  midi_channel (out_channel c) ->
  py_getitem table 0 = Some [f0; f1; f2; f3] ->
  init c (Some table) now_a now_b
  = Ok tt
      {| conf := c; programs := table; edit_mode := false;
         active_program := 0; active_state := [f0; f1; f2; f3];
         ts_history := [now_a; now_a; now_a];
         program_history := [-1; -1; -1]; last_ts := now_b |}
      [Send (program_change (out_channel c) (encode f0 f1 f2 f3))].
Proof.
  intros _ H. exact (init_ok c (Some table) now_a now_b f0 f1 f2 f3 H).
Qed.

Lemma init_from_store_witness :
  init default_config (Some [[true; true; false; true]; []]) 5 7
  = Ok tt
      {| conf := default_config; programs := [[true; true; false; true]; []];
         edit_mode := false;
         active_program := 0; active_state := [true; true; false; true];
         ts_history := [5; 5; 5];
         program_history := [-1; -1; -1]; last_ts := 7 |}
      [Send (program_change (out_channel default_config)
               (encode true true false true))].
Proof.
  apply (init_from_store default_config [[true; true; false; true]; []] 5 7
           true true false true).
  - unfold midi_channel. cbn. lia.
  - reflexivity.
Defined.

Lemma state_file_mirrors_table_witness :
  store_after None (effects_of (session default_config None 0 0 rehearsal))
  = Some (programs (state_of (session default_config None 0 0 rehearsal))).
Proof.
  apply (state_file_mirrors_table default_config None 0 0 rehearsal).
  reflexivity.
Defined.

(** ** No exception on well-formed input *)


Lemma py_pos_in_range n i : in_range n i -> exists k, py_pos n i = Some k.
Proof.
  unfold in_range, py_pos. intros H.
  destruct (Z_le_dec 0 i) as [Hi | Hi].
  - replace ((0 <=? i) && (i <? Z.of_nat n)) with true; [eauto |].
    symmetry. apply andb_true_intro. split; [apply Z.leb_le | apply Z.ltb_lt];
      lia.
  - replace ((0 <=? i) && (i <? Z.of_nat n)) with false
      by (symmetry; apply andb_false_intro1; apply Z.leb_gt; lia).
    replace ((- Z.of_nat n <=? i) && (i <? 0)) with true; [eauto |].
    symmetry. apply andb_true_intro. split; [apply Z.leb_le | apply Z.ltb_lt];
      lia.
Qed.

Lemma py_getitem_in_range {A : Type} (l : list A) i :
  in_range (length l) i -> exists x, py_getitem l i = Some x /\ In x l.
Proof.
  intros H. destruct (py_pos_in_range _ _ H) as [k Hk].
  unfold py_getitem. rewrite Hk. apply py_pos_lt in Hk.
  destruct (nth_error l k) as [x |] eqn:Hx.
  - exists x. split; [reflexivity |]. eapply nth_error_In; eauto.
  - apply nth_error_None in Hx. lia.
Qed.











(** ** Three taps *)

(** One tap on program [p], from a state that, if it is in edit mode, edits
    [p]: the event is pushed, [p] is the active program afterwards, edit mode
    is kept, and it is entered when the pushed history is a triple tap. *)
Lemma tap_step now1 now2 now3 ch p s t0 t1 t2 p0 p1 p2 f0 f1 f2 f3 :
  ts_history s = [t0; t1; t2] ->
  program_history s = [p0; p1; p2] ->
  admitted now1 now2 (program_change ch p) s ->
  py_getitem (programs s) p = Some [f0; f1; f2; f3] ->
  (edit_mode s = true -> active_program s = p) ->
  exists s' tr,
    handle now1 now2 now3 (program_change ch p) s = Ok tt s' tr /\
    ts_history s' = [t1; t2; now3] /\
    program_history s' = [p1; p2; p] /\
    last_ts s' = now1 /\
    conf s' = conf s /\
    programs s' = programs s /\
    active_program s' = p /\
    saved tr = [] /\
    (edit_mode s = true -> edit_mode s' = true) /\
    (now3 - t1 <= tripletap_time (conf s) -> p1 = p -> p2 = p ->
     edit_mode s' = true).
Proof.
  intros Ht Hp Hadm Hrow Hedit.
  set (s1 := set_program_history [p1; p2; p]
               (set_ts_history [t1; t2; now3] (set_last_ts now1 s))).
  destruct (edit_mode s) eqn:Hmode.
  - (* edit mode on [p]: nothing but the push *)
    specialize (Hedit eq_refl).
    exists s1, []. split.
    + rewrite (handle_admitted _ _ _ _ _ Hadm).
      rewrite (dispatch_program_change _ _ _ _ t0 t1 t2 p0 p1 p2) by assumption.
      cbv zeta. fields. rewrite Hmode.
      rewrite (handle_edit_program_change _ _ _ p1 p2 p) by reflexivity.
      fields. rewrite Hedit, Z.eqb_refl. reflexivity.
    + repeat split; auto.
  - rewrite (handle_program_mode_change _ _ _ _ _ _ t0 t1 t2 p0 p1 p2)
      by assumption.
    rewrite (handle_normal_program_change _ _ _ t1 t2 now3 p1 p2 p)
      by reflexivity.
    fold s1.
    destruct ((now3 - t1 <=? tripletap_time (conf s1)) && (p1 =? p2)
              && (p2 =? p)) eqn:Hb.
    + eexists _, _. split; [reflexivity |]. repeat split; auto.
    + assert (now3 - t1 <= tripletap_time (conf s) -> p1 = p -> p2 = p -> False)
        as Hno.
      { intros Hw -> ->. change (conf s1) with (conf s) in Hb.
        rewrite !Z.eqb_refl, !andb_true_r in Hb. apply Z.leb_gt in Hb. lia. }
      destruct (active_program s1 =? p) eqn:Hsame; cbn [negb].
      * apply Z.eqb_eq in Hsame. exists s1, []. split; [reflexivity |].
        repeat split; auto; try discriminate; try (intros; exfalso; auto).
      * change (programs s1) with (programs s). rewrite Hrow.
        rewrite (apply_program_four (set_active_program p s1) f0 f1 f2 f3 Hrow).
        eexists _, _. split; [reflexivity |].
        repeat split; auto; try discriminate; try (intros; exfalso; auto).
Qed.

(** X18: in program mode, three admitted program changes for one program
    of four flags, the third pushed no later than the triple-tap window after
    the first, leave the mapper in edit mode on that program, whatever
    program was active and whatever the history held; the table is untouched
    and nothing is written.  The clock readings of the three calls are
    arbitrary; admission of the second and the third is spelled out on them:
    the arrival at least 100ms after the previous arrival, the reading of the
    filter more than 100ms after the timestamp the previous tap pushed. *)
Theorem three_taps_enter_edit a1 b1 c1 a2 b2 c2 a3 b3 c3 ch1 ch2 ch3 p s
  f0 f1 f2 f3 :
  edit_mode s = false ->
  history_full s ->
  py_getitem (programs s) p = Some [f0; f1; f2; f3] ->
  admitted a1 b1 (program_change ch1 p) s ->
  ch2 = in_channel (conf s) ->
  ch3 = in_channel (conf s) ->
  timedelta_ms 100 <= a2 - a1 ->
  timedelta_ms 100 < b2 - c1 ->
  timedelta_ms 100 <= a3 - a2 ->
  timedelta_ms 100 < b3 - c2 ->
  c3 - c1 <= tripletap_time (conf s) ->
  exists s' tr,
    run [event_of a1 b1 c1 (program_change ch1 p);
         event_of a2 b2 c2 (program_change ch2 p);
         event_of a3 b3 c3 (program_change ch3 p)] s
    = Ok tt s' tr /\
    edit_mode s' = true /\
    active_program s' = p /\
    ts_history s' = [c1; c2; c3] /\
    program_history s' = [p; p; p] /\
    last_ts s' = a3 /\
    programs s' = programs s /\
    saved tr = [].
Proof.
  intros Hmode [Hlt Hlp] Hrow Hadm1 -> -> Ha2 Hb2 Ha3 Hb3 Hw.
  destruct (length_three _ Hlt) as (t0 & t1 & t2 & Ht).
  destruct (length_three _ Hlp) as (p0 & p1 & p2 & Hp).
  destruct (tap_step a1 b1 c1 ch1 p s t0 t1 t2 p0 p1 p2
              f0 f1 f2 f3 Ht Hp Hadm1 Hrow)
    as (s1 & tr1 & Hrun1 & Ht1 & Hp1 & Hl1 & Hc1 & Hpr1 & Hap1 & Hsv1 & _ & _);
    [rewrite Hmode; discriminate |].
  assert (admitted a2 b2 (program_change (in_channel (conf s)) p) s1)
    as Hadm2.
  { split; [rewrite Hl1; lia |]. split; [now rewrite Hc1 |].
    exists c1. split; [now rewrite Ht1 | lia]. }
  destruct (tap_step a2 b2 c2 (in_channel (conf s)) p s1
              t1 t2 c1 p1 p2 p f0 f1 f2 f3 Ht1 Hp1 Hadm2)
    as (s2 & tr2 & Hrun2 & Ht2 & Hp2 & Hl2 & Hc2 & Hpr2 & Hap2 & Hsv2 & _ & _);
    [now rewrite Hpr1 | intros _; exact Hap1 |].
  assert (admitted a3 b3 (program_change (in_channel (conf s)) p) s2)
    as Hadm3.
  { split; [rewrite Hl2; lia |]. split; [now rewrite Hc2, Hc1 |].
    exists c2. split; [now rewrite Ht2 | lia]. }
  destruct (tap_step a3 b3 c3 (in_channel (conf s)) p s2
              t2 c1 c2 p2 p p f0 f1 f2 f3 Ht2 Hp2 Hadm3)
    as (s3 & tr3 & Hrun3 & Ht3 & Hp3 & Hl3 & Hc3 & Hpr3 & Hap3 & Hsv3 & _ & Hin);
    [now rewrite Hpr2, Hpr1 | intros _; exact Hap2 |].
  exists s3, (tr1 ++ tr2 ++ tr3 ++ []). split.
  - cbn [run]. unfold bind, handle_event, ret.
    cbn [arrival filter_time push_time payload event_of].
    now rewrite Hrun1, Hrun2, Hrun3.
  - split; [apply Hin; [rewrite Hc2, Hc1; lia | reflexivity | reflexivity] |].
    split; [exact Hap3 |]. split; [exact Ht3 |]. split; [exact Hp3 |].
    split; [exact Hl3 |]. split; [congruence |].
    now rewrite !saved_app, Hsv1, Hsv2, Hsv3.
Qed.

Lemma three_taps_enter_edit_witness :
  exists s' tr,
    run [event_of 1000000 1000037 1000058 (program_change 0 1);
         event_of 1300000 1300002 1300009 (program_change 0 1);
         event_of 1700000 1700450 1700460 (program_change 0 1)] diverging
    = Ok tt s' tr /\
    edit_mode s' = true /\
    active_program s' = 1 /\
    ts_history s' = [1000058; 1300009; 1700460] /\
    program_history s' = [1; 1; 1] /\
    last_ts s' = 1700000 /\
    programs s' = programs diverging /\
    saved tr = [].
Proof.
  apply (three_taps_enter_edit 1000000 1000037 1000058 1300000 1300002 1300009
           1700000 1700450 1700460 0 0 0 1 diverging true false false true).
  - reflexivity.
  - split; reflexivity.
  - reflexivity.
  - split; [vm_compute; discriminate |]. split; [reflexivity |].
    exists 0. split; [reflexivity |]. vm_compute. reflexivity.
  - reflexivity.
  - reflexivity.
  - vm_compute. discriminate.
  - vm_compute. reflexivity.
  - vm_compute. discriminate.
  - vm_compute. reflexivity.
  - vm_compute. discriminate.
Defined.

(** ** The event history *)

Lemma state_of_bind_ok {A B : Type} (m : M A) (k : A -> M B) s a s1 tr1 :
  m s = Ok a s1 tr1 -> state_of (bind m k s) = state_of (k a s1).
Proof. intros H. unfold bind. rewrite H. now destruct (k a s1). Qed.

Lemma state_of_bind_raise {A B : Type} (m : M A) (k : A -> M B) s e s1 tr1 :
  m s = Raise e s1 tr1 -> state_of (bind m k s) = s1.
Proof. intros H. unfold bind. now rewrite H. Qed.

Lemma run_keeps_history_full evs : forall s,
  history_full s -> history_full (state_of (run evs s)).
Proof.
  induction evs as [| e rest IH]; intros s Hs; [exact Hs |].
  cbn [run].
  pose proof (handle_keeps_history_full (arrival e) (filter_time e)
                (push_time e) (payload e) s Hs) as H1.
  fold (handle_event e) in H1.
  destruct (handle_event e s) as [[] s1 tr1 | ex s1 tr1] eqn:He.
  - rewrite (state_of_bind_ok _ _ _ _ _ _ He). now apply IH.
  - now rewrite (state_of_bind_raise _ _ _ _ _ _ He).
Qed.

(** X19: once constructed, the mapper keeps three timestamps and three
    programs in its event history through every message, even through a call
    that raises. *)
Theorem history_stays_full c store now_a now_b evs s0 tr0 :
  init c store now_a now_b = Ok tt s0 tr0 ->
  history_full (state_of (run evs s0)).
Proof.
  intros Hinit. apply run_keeps_history_full.
  exact (proj1 (init_establishes _ _ _ _ _ _ Hinit)).
Qed.

Lemma history_stays_full_witness :
  history_full
    (state_of
       (run [event_at 200000 (program_change 0 99)]
          {| conf := default_config; programs := [[true; true; false; true]; []];
             edit_mode := false; active_program := 0;
             active_state := [true; true; false; true];
             ts_history := [5; 5; 5]; program_history := [-1; -1; -1];
             last_ts := 7 |})).
Proof.
  apply (history_stays_full default_config
           (Some [[true; true; false; true]; []]) 5 7
           [event_at 200000 (program_change 0 99)] _
           [Send (program_change 3 42)]).
  reflexivity.
Defined.

(** ** The active program stays inside the table *)

Lemma py_pos_some_in_range n i k : py_pos n i = Some k -> in_range n i.
Proof.
  unfold py_pos, in_range.
  destruct ((0 <=? i) && (i <? Z.of_nat n)) eqn:E1.
  - apply andb_prop in E1 as [H1 H2]. apply Z.leb_le in H1.
    apply Z.ltb_lt in H2. lia.
  - destruct ((- Z.of_nat n <=? i) && (i <? 0)) eqn:E2; [| discriminate].
    apply andb_prop in E2 as [H1 H2]. apply Z.leb_le in H1.
    apply Z.ltb_lt in H2. lia.
Qed.

Lemma py_getitem_some_in_range {A : Type} (l : list A) i x :
  py_getitem l i = Some x -> in_range (length l) i.
Proof.
  unfold py_getitem. destruct (py_pos (length l) i) as [k |] eqn:E;
    [| discriminate].
  intros _. exact (py_pos_some_in_range _ _ _ E).
Qed.

Lemma control_change_keeps_selection ch c v :
  preserves selection (handle_edit (control_change ch c v)) /\
  preserves selection (handle_normal (control_change ch c v)).
Proof.
  assert (preserves selection apply_program) as Happly
    by (unfold apply_program; preserve).
  split.
  - unfold handle_edit, save_programs. preserve; exact Happly.
  - unfold handle_normal. preserve.
Qed.

Lemma shape_length s s' : shape s' = shape s ->
  length (programs s') = length (programs s).
Proof.
  intros H. apply (f_equal (@length nat)) in H. unfold shape in H.
  now rewrite !length_map in H.
Qed.

Lemma settled_same_selection s s' :
  selection s' = selection s ->
  length (programs s') = length (programs s) ->
  settled s -> settled s'.
Proof.
  unfold selection, settled. intros [= Ht Hp Hm Ha] Hlen.
  now rewrite Ht, Hp, Hm, Ha, Hlen.
Qed.

Lemma dispatch_keeps_settled now3 msg s s' tr :
  settled s ->
  dispatch now3 msg s = Ok tt s' tr ->
  settled s'.
Proof.
  intros (Hap & Hlt & h0 & h1 & h2 & Hp & He & Hn) Hrun.
  destruct (length_three _ Hlt) as (t0 & t1 & t2 & Ht).
  assert (settled s) as Hs by (split; [exact Hap |]; split; eauto 10).
  destruct msg as [ch p | ch c v | ch |].
  - rewrite (dispatch_program_change _ _ _ _ t0 t1 t2 h0 h1 h2) in Hrun
      by assumption.
    cbv zeta in Hrun.
    set (s1 := set_program_history [h1; h2; p]
                 (set_ts_history [t1; t2; now3] s)) in *.
    destruct (edit_mode s) eqn:Hmode.
    + rewrite (handle_edit_program_change _ _ s1 h1 h2 p) in Hrun
        by reflexivity.
      injection Hrun as <- _. specialize (He eq_refl).
      change (active_program s1) with (active_program s).
      destruct (p =? active_program s) eqn:Hsame; cbn [negb].
      * apply Z.eqb_eq in Hsame.
        split; [exact Hap |]. split; [reflexivity |].
        exists h1, h2, p. split; [reflexivity |].
        split; [intros _; exact Hsame |].
        unfold s1. fields. rewrite Hmode. discriminate.
      * apply Z.eqb_neq in Hsame.
        split; [exact Hap |]. split; [reflexivity |].
        exists h1, h2, p. split; [reflexivity |].
        split; [discriminate |]. intros _ Heq. congruence.
    + rewrite (handle_normal_program_change _ _ s1 t1 t2 now3 h1 h2 p)
        in Hrun by reflexivity.
      destruct ((now3 - t1 <=? tripletap_time (conf s1)) && (h1 =? h2)
                && (h2 =? p)) eqn:Hb.
      * injection Hrun as <- _.
        apply andb_prop in Hb as [Hb H3]. apply andb_prop in Hb as [_ H2].
        apply Z.eqb_eq in H2, H3.
        assert (in_range (length (programs s)) p) as Hin
          by (rewrite <- H3; apply Hn; [reflexivity | exact H2]).
        split; [exact Hin |]. split; [reflexivity |].
        exists h1, h2, p. split; [reflexivity |].
        split; [reflexivity | discriminate].
      * destruct (active_program s1 =? p) eqn:Hsame; cbn [negb] in Hrun.
        -- injection Hrun as <- _. apply Z.eqb_eq in Hsame.
           split; [exact Hap |]. split; [reflexivity |].
           exists h1, h2, p. split; [reflexivity |].
           split; [unfold s1; fields; rewrite Hmode; discriminate |].
           intros _ _. rewrite <- Hsame. exact Hap.
        -- destruct (py_getitem (programs s1) p) as [logged |] eqn:Hrow;
             [| discriminate].
           apply py_getitem_some_in_range in Hrow.
           destruct (apply_program_cases (set_active_program p s1))
             as [(e & st & He') | (row & n & _ & He')];
             rewrite He' in Hrun; [discriminate |].
           injection Hrun as <- _.
           split; [exact Hrow |]. split; [reflexivity |].
           exists h1, h2, p. split; [reflexivity |].
           split; [unfold s1; fields; rewrite Hmode; discriminate |].
           intros _ _. exact Hrow.
  - pose proof (dispatch_keeps_shape now3 (control_change ch c v) s) as Hshape.
    rewrite Hrun in Hshape. cbn [state_of] in Hshape.
    apply shape_length in Hshape.
    rewrite dispatch_control_change in Hrun.
    destruct (control_change_keeps_selection ch c v) as [Hke Hkn].
    specialize (Hke s). specialize (Hkn s).
    apply (settled_same_selection s); [| exact Hshape | exact Hs].
    destruct (edit_mode s); rewrite Hrun in *; [exact Hke | exact Hkn].
  - assert (s' = s) as ->; [| exact Hs].
    revert Hrun. unfold dispatch. cbn [record_program_change]. mstep.
    destruct (edit_mode s); cbn [handle_edit handle_normal];
      now intros [= <- _].
  - assert (s' = s) as ->; [| exact Hs].
    revert Hrun. unfold dispatch. cbn [record_program_change]. mstep.
    destruct (edit_mode s); cbn [handle_edit handle_normal];
      now intros [= <- _].
Qed.

Lemma handle_keeps_settled now1 now2 now3 msg s s' tr :
  settled s ->
  handle now1 now2 now3 msg s = Ok tt s' tr ->
  settled s'.
Proof.
  intros Hs.
  destruct (handle_cases now1 now2 now3 msg s) as [-> | [[e ->] | [_ ->]]].
  - intros [= <- _]. exact Hs.
  - discriminate.
  - now apply dispatch_keeps_settled.
Qed.

Lemma run_keeps_settled evs : forall s s' tr,
  settled s -> run evs s = Ok tt s' tr -> settled s'.
Proof.
  induction evs as [| e rest IH]; intros s s' tr Hs.
  - intros [= <- _]. exact Hs.
  - cbn [run]. unfold bind.
    destruct (handle_event e s) as [[] s1 tr1 | ex s1 tr1] eqn:He;
      [| discriminate].
    destruct (run rest s1) as [[] s2 tr2 | ex s2 tr2] eqn:Hr; [| discriminate].
    intros [= <- _]. apply (IH s1 s2 tr2); [| exact Hr].
    exact (handle_keeps_settled _ _ _ _ _ _ _ Hs He).
Qed.

Lemma init_settled c store now_a now_b s tr :
  init c store now_a now_b = Ok tt s tr -> settled s.
Proof.
  intros Hinit.
  destruct (init_ok_row _ _ _ _ _ _ Hinit) as (f0 & f1 & f2 & f3 & Hrow).
  rewrite (init_ok c store now_a now_b f0 f1 f2 f3 Hrow) in Hinit.
  injection Hinit as <- _.
  pose proof (py_getitem_some_in_range _ _ _ Hrow) as H0.
  split; [exact H0 |]. split; [reflexivity |].
  exists (-1), (-1), (-1). split; [reflexivity |].
  split; [discriminate |]. intros _ _.
  cbn [programs] in H0 |- *. unfold in_range in *. lia.
Qed.

(** X20: in every state a session reaches without raising, the table has a
    row for [active_program]; no assumption is made on the table or on the
    program numbers of the messages, and the triple tap, which sets
    [active_program] without looking at the table, is included. *)
Theorem active_program_stays_in_table c store now_a now_b evs s tr :
  session c store now_a now_b evs = Ok tt s tr ->
  exists row, py_getitem (programs s) (active_program s) = Some row.
Proof.
  unfold session.
  destruct (init c store now_a now_b) as [[] s0 tr0 | e s0 tr0] eqn:Hinit;
    [| discriminate].
  destruct (run evs s0) as [[] s1 tr1 | e s1 tr1] eqn:Hrun; [| discriminate].
  intros [= <- _].
  pose proof (run_keeps_settled evs _ _ _ (init_settled _ _ _ _ _ _ Hinit) Hrun)
    as (Hin & _).
  destruct (py_getitem_in_range _ _ Hin) as (row & Hrow & _). eauto.
Qed.

Lemma active_program_stays_in_table_witness :
  exists row,
    py_getitem
      (programs (state_of (session default_config None 0 0 rehearsal)))
      (active_program (state_of (session default_config None 0 0 rehearsal)))
    = Some row.
Proof.
  apply (active_program_stays_in_table default_config None 0 0 rehearsal
           _ (effects_of (session default_config None 0 0 rehearsal))).
  reflexivity.
Defined.

(** ** Port discovery *)

Lemma contains_occurs port_name i :
  contains port_name i = true <-> occurs_in port_name i.
Proof.
  unfold contains, occurs_in. split.
  - destruct (String.index 0 port_name i) as [m |] eqn:H; [| discriminate].
    intros _. exists m. exact (String.index_correct1 _ _ _ _ H).
  - intros [m Hm].
    destruct (String.index 0 port_name i) as [k |] eqn:H; [reflexivity |].
    exfalso. destruct port_name as [| a rest].
    + apply String.index_correct4 in H. inversion H.
    + refine (String.index_correct3 0 m _ _ H _ _ Hm);
        [discriminate | apply Nat.le_0_l].
Qed.

Lemma contains_not_occurs port_name i :
  contains port_name i = false <-> ~ occurs_in port_name i.
Proof.
  rewrite <- contains_occurs. destruct (contains port_name i); split;
    congruence.
Qed.

Lemma first_match_some port_name names i :
  first_match port_name names = Some i <->
  exists pre post,
    names = pre ++ i :: post /\
    Forall (fun j => ~ occurs_in port_name j) pre /\
    occurs_in port_name i.
Proof.
  induction names as [| j rest IH]; cbn [first_match].
  - split; [discriminate |]. intros (pre & post & H & _).
    destruct pre; discriminate.
  - destruct (contains port_name j) eqn:Hj.
    + split.
      * intros [= <-]. exists [], rest. split; [reflexivity |].
        split; [constructor | now apply contains_occurs].
      * intros (pre & post & Hn & Hpre & Hi).
        destruct pre as [| j' pre]; cbn in Hn; injection Hn as -> ->;
          [reflexivity |].
        inversion Hpre as [| ? ? Hno _]. apply contains_occurs in Hj.
        contradiction.
    + rewrite IH. apply contains_not_occurs in Hj. split.
      * intros (pre & post & -> & Hpre & Hi). exists (j :: pre), post.
        split; [reflexivity |]. split; [now constructor | exact Hi].
      * intros (pre & post & Hn & Hpre & Hi).
        destruct pre as [| j' pre]; cbn in Hn; injection Hn as -> ->;
          [contradiction |].
        inversion Hpre. eauto.
Qed.

Lemma first_match_none port_name names :
  first_match port_name names = None <->
  Forall (fun j => ~ occurs_in port_name j) names.
Proof.
  induction names as [| j rest IH]; cbn [first_match].
  - split; [constructor | reflexivity].
  - destruct (contains port_name j) eqn:Hj.
    + split; [discriminate |]. intros H. inversion H as [| ? ? Hno _].
      apply contains_occurs in Hj. contradiction.
    + rewrite IH. apply contains_not_occurs in Hj. split.
      * now constructor.
      * intros H. now inversion H.
Qed.

(** X21: [get_port] returns a name exactly when it is the first name, in
    the order of the listing, that contains [port_name] as a substring, in the
    first listing that has such a name; the listings before have none. *)
Theorem get_port_returns_first_match port_name polls i :
  get_port port_name polls = Some i <->
  exists before pre post after,
    polls = before ++ (pre ++ i :: post) :: after /\
    Forall (Forall (fun j => ~ occurs_in port_name j)) before /\
    Forall (fun j => ~ occurs_in port_name j) pre /\
    occurs_in port_name i.
Proof.
  induction polls as [| names later IH]; cbn [get_port].
  - split; [discriminate |]. intros (before & pre & post & after & H & _).
    destruct before; discriminate.
  - destruct (first_match port_name names) as [k |] eqn:Hk.
    + apply first_match_some in Hk as (pre & post & -> & Hpre & Hi). split.
      * intros [= <-]. exists [], pre, post, later.
        split; [reflexivity |]. split; [constructor |]. now split.
      * intros (before & pre' & post' & after & Hn & Hb & Hpre' & Hi').
        destruct before as [| b before]; cbn in Hn; injection Hn as Hn Hl.
        -- assert (first_match port_name (pre ++ k :: post) = Some k) as H1
             by (apply first_match_some; eauto).
           assert (first_match port_name (pre ++ k :: post) = Some i) as H2
             by (rewrite Hn; apply first_match_some; eauto).
           congruence.
        -- exfalso. inversion Hb as [| ? ? Hnone _]. subst b.
           rewrite Forall_forall in Hnone. apply (Hnone k); [| exact Hi].
           apply in_or_app. right. now left.
    + rewrite IH. apply first_match_none in Hk. split.
      * intros (before & pre & post & after & -> & Hb & Hpre & Hi).
        exists (names :: before), pre, post, after.
        split; [reflexivity |]. split; [now constructor | now split].
      * intros (before & pre & post & after & Hn & Hb & Hpre & Hi).
        destruct before as [| b before]; cbn in Hn; injection Hn as Hn Hl.
        -- exfalso. subst names. rewrite Forall_forall in Hk.
           apply (Hk i); [| exact Hi]. apply in_or_app. right. now left.
        -- subst. inversion Hb. eauto 10.
Qed.

(** X22: [get_port] is still polling after a run of listings exactly when
    none of them has a name that contains [port_name]; a listing with such a
    name makes it return. *)
Theorem get_port_keeps_polling port_name polls :
  get_port port_name polls = None <->
  Forall (Forall (fun j => ~ occurs_in port_name j)) polls.
Proof.
  induction polls as [| names later IH]; cbn [get_port].
  - split; [constructor | reflexivity].
  - destruct (first_match port_name names) as [k |] eqn:Hk.
    + split; [discriminate |]. intros H. inversion H as [| ? ? Hnone _].
      apply first_match_none in Hnone. congruence.
    + rewrite IH. apply first_match_none in Hk. split.
      * now constructor.
      * intros H. now inversion H.
Qed.

(** The listings of the sample: the second names the device twice, and the
    first of the two names is returned. *)
Lemma get_port_listings :
  get_port "MidiLink Mini"%string listings
  = Some "MidiLink Mini:MidiLink Mini MIDI 1 20:0"%string.
Proof. reflexivity. Qed.

(** ** ActiveState diverges from the table by manual toggles only *)

Lemma tap_tracks_same_selection s s' :
  selection s' = selection s ->
  tap_tracks_active s -> tap_tracks_active s'.
Proof.
  unfold selection, tap_tracks_active, history_full.
  intros [= Ht Hp Hm Ha]. now rewrite Ht, Hp, Hm, Ha.
Qed.

Lemma dispatch_keeps_tap_tracks now3 msg s s' tr :
  tap_tracks_active s ->
  midi_program msg ->
  dispatch now3 msg s = Ok tt s' tr ->
  tap_tracks_active s'.
Proof.
  intros Hs Hmidi Hrun.
  pose proof Hs as ([Hlt Hlp] & h0 & h1 & h2 & Hp & He & Hn).
  destruct (length_three _ Hlt) as (t0 & t1 & t2 & Ht).
  destruct msg as [ch p | ch c v | ch |]; cbn [midi_program] in Hmidi.
  - rewrite (dispatch_program_change _ _ _ _ t0 t1 t2 h0 h1 h2) in Hrun
      by assumption.
    cbv zeta in Hrun.
    set (s1 := set_program_history [h1; h2; p]
                 (set_ts_history [t1; t2; now3] s)) in *.
    destruct (edit_mode s) eqn:Hmode.
    + rewrite (handle_edit_program_change _ _ s1 h1 h2 p) in Hrun
        by reflexivity.
      injection Hrun as <- _. specialize (He eq_refl).
      change (active_program s1) with (active_program s).
      destruct (p =? active_program s) eqn:Hsame; cbn [negb].
      * apply Z.eqb_eq in Hsame. split; [split; reflexivity |].
        exists h1, h2, p. split; [reflexivity |].
        split; [intros _; exact Hsame |].
        unfold s1. fields. rewrite Hmode. discriminate.
      * apply Z.eqb_neq in Hsame. split; [split; reflexivity |].
        exists h1, h2, p. split; [reflexivity |].
        split; [discriminate |]. intros _ Heq _. exfalso. congruence.
    + rewrite (handle_normal_program_change _ _ s1 t1 t2 now3 h1 h2 p)
        in Hrun by reflexivity.
      destruct ((now3 - t1 <=? tripletap_time (conf s1)) && (h1 =? h2)
                && (h2 =? p)).
      * injection Hrun as <- _. split; [split; reflexivity |].
        exists h1, h2, p. split; [reflexivity |].
        split; [reflexivity | discriminate].
      * destruct (active_program s1 =? p) eqn:Hsame; cbn [negb] in Hrun.
        -- injection Hrun as <- _. apply Z.eqb_eq in Hsame.
           split; [split; reflexivity |].
           exists h1, h2, p. split; [reflexivity |].
           split; [unfold s1; fields; rewrite Hmode; discriminate |].
           intros _ _ _. symmetry. exact Hsame.
        -- destruct (py_getitem (programs s1) p); [| discriminate].
           destruct (apply_program_cases (set_active_program p s1))
             as [(e & st & He') | (row & n & _ & He')];
             rewrite He' in Hrun; [discriminate |].
           injection Hrun as <- _. split; [split; reflexivity |].
           exists h1, h2, p. split; [reflexivity |].
           split; [unfold s1; fields; rewrite Hmode; discriminate |].
           reflexivity.
  - rewrite dispatch_control_change in Hrun.
    destruct (control_change_keeps_selection ch c v) as [Hke Hkn].
    specialize (Hke s). specialize (Hkn s).
    apply (tap_tracks_same_selection s); [| exact Hs].
    destruct (edit_mode s); rewrite Hrun in *; [exact Hke | exact Hkn].
  - assert (s' = s) as ->; [| exact Hs].
    revert Hrun. unfold dispatch. cbn [record_program_change]. mstep.
    destruct (edit_mode s); cbn [handle_edit handle_normal];
      now intros [= <- _].
  - assert (s' = s) as ->; [| exact Hs].
    revert Hrun. unfold dispatch. cbn [record_program_change]. mstep.
    destruct (edit_mode s); cbn [handle_edit handle_normal];
      now intros [= <- _].
Qed.

Lemma handle_keeps_tap_tracks now1 now2 now3 msg s s' tr :
  tap_tracks_active s ->
  midi_program msg ->
  handle now1 now2 now3 msg s = Ok tt s' tr ->
  tap_tracks_active s'.
Proof.
  intros Hs Hmidi.
  destruct (handle_cases now1 now2 now3 msg s) as [-> | [[e ->] | [_ ->]]].
  - intros [= <- _]. exact Hs.
  - discriminate.
  - now apply dispatch_keeps_tap_tracks.
Qed.

Lemma run_keeps_tap_tracks evs : forall s s' tr,
  tap_tracks_active s ->
  Forall (fun e => midi_program (payload e)) evs ->
  run evs s = Ok tt s' tr -> tap_tracks_active s'.
Proof.
  induction evs as [| e rest IH]; intros s s' tr Hs Hevs.
  - intros [= <- _]. exact Hs.
  - inversion Hevs as [| e' rest' He Hrest]; subst.
    cbn [run]. unfold bind.
    destruct (handle_event e s) as [[] s1 tr1 | ex s1 tr1] eqn:H1;
      [| discriminate].
    destruct (run rest s1) as [[] s2 tr2 | ex s2 tr2] eqn:Hr; [| discriminate].
    intros [= <- _]. apply (IH s1 s2 tr2); [| exact Hrest | exact Hr].
    exact (handle_keeps_tap_tracks _ _ _ _ _ _ _ Hs He H1).
Qed.

Lemma init_tap_tracks c store now_a now_b s tr :
  init c store now_a now_b = Ok tt s tr -> tap_tracks_active s.
Proof.
  intros Hinit.
  destruct (init_ok_row _ _ _ _ _ _ Hinit) as (f0 & f1 & f2 & f3 & Hrow).
  rewrite (init_ok c store now_a now_b f0 f1 f2 f3 Hrow) in Hinit.
  injection Hinit as <- _. split; [split; reflexivity |].
  exists (-1), (-1), (-1). split; [reflexivity |].
  split; [discriminate |]. intros _ _ H. exfalso. lia.
Qed.

Lemma session_tap_tracks c store now_a now_b evs s tr :
  Forall (fun e => midi_program (payload e)) evs ->
  session c store now_a now_b evs = Ok tt s tr ->
  tap_tracks_active s.
Proof.
  intros Hevs. unfold session.
  destruct (init c store now_a now_b) as [[] s0 tr0 | e s0 tr0] eqn:Hinit;
    [| discriminate].
  destruct (run evs s0) as [[] s1 tr1 | e s1 tr1] eqn:Hrun; [| discriminate].
  intros [= <- _].
  exact (run_keeps_tap_tracks evs _ _ _ (init_tap_tracks _ _ _ _ _ _ Hinit)
           Hevs Hrun).
Qed.

(** What one call does to [active_state] and the table: it applies a row
    (plain switch or edit mutation), or it is a manual toggle, or it leaves
    [active_state], the table and [active_program] alone. *)
Lemma handle_trichotomy now1 now2 now3 msg s s' tr :
  tap_tracks_active s ->
  midi_program msg ->
  handle now1 now2 now3 msg s = Ok tt s' tr ->
  (admitted now1 now2 msg s /\ (switches msg s s' \/ edits msg s) /\
   in_step s') \/
  (admitted now1 now2 msg s /\ toggles msg s) \/
  (active_state s' = active_state s /\ programs s' = programs s /\
   active_program s' = active_program s /\
   (admitted now1 now2 msg s ->
    ~ (switches msg s s' \/ edits msg s \/ toggles msg s))).
Proof.
  intros ([Hlt Hlp] & h0 & p1 & p2 & Hp & He & Hn) Hmidi Hrun.
  destruct (length_three _ Hlt) as (t0 & t1 & t2 & Ht).
  destruct (admitted_dec now1 now2 msg s) as [Hadm | Hnot].
  2:{ destruct (handle_not_admitted _ _ _ _ _ _ _ Hnot Hrun) as [-> ->].
      right. right. repeat split. intros Hadm. contradiction. }
  rewrite (handle_admitted _ _ _ _ _ Hadm) in Hrun.
  destruct msg as [ch p | ch c v | ch |]; cbn [midi_program] in Hmidi.
  - (* program change *)
    rewrite (dispatch_program_change _ _ _ _ t0 t1 t2 h0 p1 p2) in Hrun
      by assumption.
    cbv zeta in Hrun. fields_in Hrun.
    set (s1 := set_program_history [p1; p2; p]
                 (set_ts_history [t1; t2; now3] (set_last_ts now1 s))) in *.
    assert (ts_history s1 = [t1; t2; now3]) as Ht1 by reflexivity.
    assert (program_history s1 = [p1; p2; p]) as Hp1 by reflexivity.
    destruct (edit_mode s) eqn:Hmode.
    + (* edit mode: exit or nothing *)
      rewrite (handle_edit_program_change _ _ _ _ _ _ Hp1) in Hrun.
      injection Hrun as <- <-. right. right.
      split; [now destruct (negb (p =? active_program s)) |].
      split; [now destruct (negb (p =? active_program s)) |].
      split; [now destruct (negb (p =? active_program s)) |].
      intros _ [[Hm _] | [[_ (c0 & c & v & Hmsg & _)]
                         | [_ (c0 & c & v & Hmsg & _)]]]; congruence.
    + rewrite (handle_normal_program_change _ _ _ _ _ _ _ _ _ Ht1 Hp1) in Hrun.
      pose proof (tripletap_bool p s1 _ _ _ _ _ Ht1 Hp1) as Htap.
      destruct ((now3 - t1 <=? tripletap_time (conf s1)) && (p1 =? p2)
                && (p2 =? p)) eqn:Hb.
      * (* triple tap: the program is the active one already *)
        injection Hrun as <- <-.
        assert (tripletap p (set_active_program p (set_edit_mode true s1)))
          as Htt by (apply (tripletap_same_history p s1); tauto).
        apply andb_prop in Hb as [Hb H3]. apply andb_prop in Hb as [_ H2].
        apply Z.eqb_eq in H2, H3.
        assert (p = active_program s) as Hact
          by (rewrite <- H3; apply Hn; [reflexivity | exact H2 | lia]).
        right. right. split; [reflexivity |]. split; [reflexivity |].
        split; [exact Hact |].
        intros _ [(_ & c0 & q & [= _ <-] & _ & Hno)
                 | [[Hm _] | [_ (c0 & c & v & Hmsg & _)]]];
          [contradiction | congruence | discriminate].
      * assert (~ tripletap p s1) as Hno
          by (intros H; apply Htap in H; discriminate).
        destruct (active_program s1 =? p) eqn:Hsame; cbn [negb] in Hrun.
        -- (* the active program again *)
           injection Hrun as <- <-. apply Z.eqb_eq in Hsame.
           right. right. repeat split.
           intros _ [(_ & c0 & q & [= _ <-] & Hq & _)
                    | [[Hm _] | [_ (c0 & c & v & Hmsg & _)]]];
             [exfalso; apply Hq; symmetry; exact Hsame | congruence
             | discriminate].
        -- (* plain switch *)
           apply Z.eqb_neq in Hsame.
           destruct (py_getitem (programs s1) p); [| discriminate].
           destruct (apply_program_cases (set_active_program p s1))
             as [(e & st & He') | (row & n & Hrow & He')];
             rewrite He' in Hrun; [discriminate |].
           injection Hrun as <- _. left.
           split; [exact Hadm |]. split; [| exact Hrow].
           left. split; [exact Hmode |]. exists ch, p.
           split; [reflexivity |]. split; [intros ->; now apply Hsame |].
           intros H. apply Hno.
           revert H. apply tripletap_same_history; reflexivity.
  - (* control change *)
    rewrite dispatch_control_change in Hrun. fields_in Hrun.
    destruct ((80 <=? c) && (c <=? 83)) eqn:Hrange.
    + assert (80 <= c <= 83) as Hc
        by (apply andb_prop in Hrange as [H1 H2]; lia).
      destruct (edit_mode s) eqn:Hmode.
      * left. split; [exact Hadm |]. split.
        -- right. split; [exact Hmode |]. now exists ch, c, v.
        -- eapply handle_edit_control_change; eauto.
      * right. left. split; [exact Hadm |].
        split; [exact Hmode |]. now exists ch, c, v.
    + assert (~ 80 <= c <= 83) as Hc.
      { intros [H1 H2]. apply Z.leb_le in H1, H2.
        rewrite H1, H2 in Hrange. discriminate. }
      assert (s' = set_last_ts now1 s) as ->.
      { destruct (edit_mode s); cbn [handle_edit handle_normal] in Hrun;
          rewrite Hrange in Hrun; now injection Hrun as <- <-. }
      right. right. repeat split.
      intros _ [(_ & c0 & q & Hmsg & _)
               | [(_ & c0 & c1 & v1 & [= _ <- _] & H)
                 | (_ & c0 & c1 & v1 & [= _ <- _] & H)]];
        [discriminate | contradiction | contradiction].
  - (* another voice message *)
    assert (s' = set_last_ts now1 s) as ->.
    { revert Hrun. unfold dispatch. cbn [record_program_change]. mstep.
      destruct (edit_mode s); cbn [handle_edit handle_normal];
        now intros [= <- <-]. }
    right. right. repeat split.
    intros _ [(_ & c0 & q & Hmsg & _)
             | [(_ & c0 & c1 & v1 & Hmsg & _) | (_ & c0 & c1 & v1 & Hmsg & _)]];
      discriminate.
  - (* no channel *)
    destruct Hadm as (_ & Hch & _). discriminate.
Qed.

(** C5 (amended): in any state a session has reached, the program numbers
    of its messages not negative: right after [handle] has carried out a plain
    program switch (an admitted program change in program mode, for another
    program than the active one, that completes no triple tap) or an
    edit-mode loop mutation, [active_state] equals the table's entry for
    [active_program]; every other message that is no manual loop toggle, among
    them the program changes that are filtered out, name the active program,
    complete a triple tap or arrive in edit mode, leaves [active_state], the
    table and [active_program] as they were; hence [active_state] diverges
    from the table's entry for [active_program] through manual loop toggles in
    program mode only: a call that finds them equal and is no such toggle
    leaves them equal. *)
Theorem active_state_follows_table
  c store now_a now_b evs s tr0 now1 now2 now3 msg s' tr :
  Forall (fun e => midi_program (payload e)) evs ->
  midi_program msg ->
  session c store now_a now_b evs = Ok tt s tr0 ->
  handle now1 now2 now3 msg s = Ok tt s' tr ->
  (admitted now1 now2 msg s -> switches msg s s' \/ edits msg s ->
   in_step s') /\
  (~ admitted now1 now2 msg s
   \/ ~ (switches msg s s' \/ edits msg s \/ toggles msg s) ->
   active_state s' = active_state s /\ programs s' = programs s /\
   active_program s' = active_program s) /\
  (~ (admitted now1 now2 msg s /\ toggles msg s) -> in_step s -> in_step s').
Proof.
  intros Hevs Hmidi Hsession Hrun.
  pose proof (session_tap_tracks _ _ _ _ _ _ _ Hevs Hsession) as Hs.
  destruct (handle_trichotomy _ _ _ _ _ _ _ Hs Hmidi Hrun)
    as [(Hadm & Happ & Hin) | [(Hadm & Htog) | (Ha & Hp & Hact & Hno)]].
  - split; [intros _ _; exact Hin |]. split; [| intros _ _; exact Hin].
    intros [Hn | Hn]; [contradiction |]. exfalso. apply Hn. tauto.
  - split; [| split].
    + intros _ [(_ & c0 & q & Hmsg & _) | [Hm _]];
        destruct Htog as (Hm' & c1 & c2 & v & Hmsg' & _); congruence.
    + intros [Hn | Hn]; [contradiction |]. exfalso. apply Hn. tauto.
    + intros Hn. exfalso. apply Hn. now split.
  - split; [| split].
    + intros Hadm Happ. exfalso. apply (Hno Hadm). tauto.
    + intros _. now repeat split.
    + intros _. unfold in_step. now rewrite Ha, Hp, Hact.
Qed.

Lemma active_state_follows_table_witness :
  let s := state_of (session default_config (Some two_programs) 0 0 one_toggle) in
  let s' := state_of (handle 500000 500037 500058 (program_change 0 1) s) in
  ~ in_step s /\
  in_step s' /\
  active_state s' = [true; false; false; true].
Proof.
  cbv zeta.
  split; [unfold in_step; vm_compute; discriminate |].
  split; [| reflexivity].
  refine (proj1 (active_state_follows_table
                   default_config (Some two_programs) 0 0 one_toggle
                   (state_of (session default_config (Some two_programs) 0 0
                                one_toggle))
                   (effects_of (session default_config (Some two_programs) 0 0
                                  one_toggle))
                   500000 500037 500058 (program_change 0 1)
                   (state_of
                      (handle 500000 500037 500058 (program_change 0 1)
                         (state_of (session default_config (Some two_programs)
                                      0 0 one_toggle))))
                   (effects_of
                      (handle 500000 500037 500058 (program_change 0 1)
                         (state_of (session default_config (Some two_programs)
                                      0 0 one_toggle))))
                   _ _ _ _) _ _).
  - repeat constructor.
  - cbn. lia.
  - reflexivity.
  - reflexivity.
  - split; [vm_compute; discriminate |]. split; [reflexivity |].
    exists 0. split; [reflexivity |]. vm_compute. reflexivity.
  - left. split; [reflexivity |]. exists 0, 1. split; [reflexivity |].
    split; [discriminate |].
    intros (a & b & c & _ & H & _). discriminate H.
Defined.
